(** * Jay's Frames order-intake server (server.js): a shallow embedding

    The Express handlers of [server.js] are embedded as state-passing
    functions over the in-memory lowdb document, the file it is written to,
    and a log of the calls made to the external collaborators (Stripe,
    the mail transport, the console).  The collaborators themselves are not
    code of this repository: they are the fields of a [Runtime] record. *)

From Stdlib Require Import ZArith String Ascii List Bool Lia Sorted.
From stdpp Require Import gmap strings list.

Open Scope string_scope.
Open Scope Z_scope.

(** ** JavaScript values and the coercions the server relies on *)

Module Js.

(** The values that travel through the handlers: the scalars of a JSON
    request body, of Stripe metadata and of the order records.  [JNum z] is
    an integer-valued number in the exactly representable range
    ([|z| <= MAX_SAFE_INTEGER]); [JNaN] is the number NaN; [JUndefined] is
    also what reading an absent property gives. *)
Inductive JsVal : Type :=
| JUndefined
| JNull
| JBool (b : bool)
| JNum (z : Z)
| JNaN
| JStr (s : string).

#[global] Instance JsVal_eq_dec : EqDecision JsVal.
Proof. solve_decision. Defined.

Definition MAX_SAFE_INTEGER : Z := 9007199254740991.

(** What a thrown JavaScript exception carries, as far as the handlers can
    tell the cases apart. *)
Inductive Error : Type :=
| TypeError (what : string)
| StripeError (what : string)
| MailError (what : string).

(** [err.message] *)
Definition message (e : Error) : string :=
  match e with
  | TypeError what | StripeError what | MailError what => what
  end.

(** Completion of an expression: a value, or a throw. *)
Inductive Completion (A : Type) : Type :=
| Normal (a : A)
| Throw (e : Error).
Arguments Normal {A} a.
Arguments Throw {A} e.

(** ToBoolean: the falsy values are undefined, null, false, 0, NaN and
    the empty string. *)
Definition truthy (v : JsVal) : bool :=
  match v with
  | JUndefined | JNull | JNaN => false
  | JBool b => b
  | JNum z => negb (z =? 0)
  | JStr s => negb (String.eqb s "")
  end.

(** [a || b] *)
Definition js_or (a b : JsVal) : JsVal := if truthy a then a else b.

(** [a === b] on scalars (NaN is not equal to itself). *)
Definition strict_eq (a b : JsVal) : bool :=
  match a, b with
  | JUndefined, JUndefined => true
  | JNull, JNull => true
  | JBool x, JBool y => Bool.eqb x y
  | JNum x, JNum y => x =? y
  | JStr x, JStr y => String.eqb x y
  | _, _ => false
  end.

(** *** Number to string, in radix 10 *)

Definition digit_char (d : N) : ascii := ascii_of_N (48 + d).

(** The decimal digits of [n], most significant first. *)
Fixpoint digits_of (fuel : nat) (n : N) : list N :=
  match fuel with
  | O => [n]
  | S fuel' =>
      if (n <? 10)%N then [n]
      else digits_of fuel' (n / 10)%N ++ [(n mod 10)%N]
  end.

Definition string_of_digits (ds : list N) : string :=
  string_of_list_ascii (map digit_char ds).

Definition N_toString (n : N) : string :=
  string_of_digits (digits_of (N.to_nat (N.log2 n)) n).

(** Number.prototype.toString for an integer below 10^21. *)
Definition Z_toString (z : Z) : string :=
  if z <? 0 then String "-" (N_toString (Z.abs_N z)) else N_toString (Z.abs_N z).

(** ToString *)
Definition ToString (v : JsVal) : string :=
  match v with
  | JUndefined => "undefined"
  | JNull => "null"
  | JBool true => "true"
  | JBool false => "false"
  | JNum z => Z_toString z
  | JNaN => "NaN"
  | JStr s => s
  end.

(** [v.toString()]: a method call, so it throws on undefined and null. *)
Definition method_toString (v : JsVal) : Completion string :=
  match v with
  | JUndefined => Throw (TypeError "Cannot read properties of undefined (reading 'toString')")
  | JNull => Throw (TypeError "Cannot read properties of null (reading 'toString')")
  | _ => Normal (ToString v)
  end.

(** [v.substring(0, n)]: only strings have the method. *)
Definition method_substring (v : JsVal) (n : nat) : Completion string :=
  match v with
  | JStr s => Normal (substring 0 n s)
  | JUndefined => Throw (TypeError "Cannot read properties of undefined (reading 'substring')")
  | JNull => Throw (TypeError "Cannot read properties of null (reading 'substring')")
  | _ => Throw (TypeError "substring is not a function")
  end.

(** *** parseInt with no radix argument

    White space is the ASCII white space; the result is exact for a digit
    string whose value is a safe integer. *)

Definition is_whitespace (c : ascii) : bool :=
  let n := N_of_ascii c in
  ((9 <=? n) && (n <=? 13) || (n =? 32))%N.

Fixpoint trim_start (s : string) : string :=
  match s with
  | String c rest => if is_whitespace c then trim_start rest else s
  | EmptyString => s
  end.

(** The value of [c] as a digit in [radix], if it is one. *)
Definition digit_value (radix : N) (c : ascii) : option N :=
  let n := N_of_ascii c in
  let v :=
    if ((48 <=? n) && (n <=? 57))%N then Some (n - 48)%N
    else if ((97 <=? n) && (n <=? 122))%N then Some (n - 87)%N
    else if ((65 <=? n) && (n <=? 90))%N then Some (n - 55)%N
    else None in
  match v with
  | Some d => if (d <? radix)%N then Some d else None
  | None => None
  end.

(** One more digit read in radix 10. *)
Definition decimal_step (acc d : N) : N := (10 * acc + d)%N.

(** Reads the longest prefix of digits; [None] when there is none. *)
Fixpoint read_digits (radix : N) (s : string) (acc : option N) : option N :=
  match s with
  | String c rest =>
      match digit_value radix c with
      | Some d => read_digits radix rest (Some (radix * default 0%N acc + d)%N)
      | None => acc
      end
  | EmptyString => acc
  end.

Definition strip_sign (s : string) : bool * string :=
  match s with
  | String "-" rest => (true, rest)
  | String "+" rest => (false, rest)
  | _ => (false, s)
  end.

Definition strip_hex_prefix (s : string) : N * string :=
  match s with
  | String "0" (String "x" rest) => (16%N, rest)
  | String "0" (String "X" rest) => (16%N, rest)
  | _ => (10%N, s)
  end.

Definition parseInt_string (input : string) : JsVal :=
  let '(negative, s1) := strip_sign (trim_start input) in
  let '(radix, s2) := strip_hex_prefix s1 in
  match read_digits radix s2 None with
  | None => JNaN
  | Some n => JNum (if negative then - Z.of_N n else Z.of_N n)
  end.

(** [parseInt(v)]: the argument is first converted with ToString. *)
Definition parseInt (v : JsVal) : JsVal := parseInt_string (ToString v).

(** *** Property access on an object literal *)

(** The names every object literal inherits from Object.prototype. *)
Definition ObjectPrototype_keys : list string :=
  [ "constructor"; "__defineGetter__"; "__defineSetter__"; "hasOwnProperty";
    "__lookupGetter__"; "__lookupSetter__"; "isPrototypeOf";
    "propertyIsEnumerable"; "toString"; "valueOf"; "__proto__";
    "toLocaleString" ].

(** What [obj[key]] finds on an object literal whose own properties are
    [own]: an own property, a property inherited from Object.prototype
    (a built-in function, or the prototype object itself for __proto__),
    or nothing (the expression is then undefined). *)
Inductive Slot (A : Type) : Type :=
| Own (a : A)
| Inherited (key : string)
| Missing.
Arguments Own {A} a.
Arguments Inherited {A} key.
Arguments Missing {A}.

Fixpoint assoc {A : Type} (key : string) (own : list (string * A)) : option A :=
  match own with
  | [] => None
  | (k, a) :: rest => if String.eqb k key then Some a else assoc key rest
  end.

Definition is_inherited (key : string) : bool :=
  existsb (String.eqb key) ObjectPrototype_keys.

(** [obj[v]]: the key is ToString of [v]. *)
Definition get {A : Type} (own : list (string * A)) (v : JsVal) : Slot A :=
  let key := ToString v in
  match assoc key own with
  | Some a => Own a
  | None => if is_inherited key then Inherited key else Missing
  end.

(** [fn.name] of the built-in found under an inherited key (the prototype
    object under __proto__ has no such property). *)
Definition builtin_name (key : string) : JsVal :=
  if String.eqb key "constructor" then JStr "Object"
  else if String.eqb key "__proto__" then JUndefined
  else JStr key.

End Js.

Export Js.

(** [a * b] on scalars.  Strings are converted by the engine's
    StringToNumber, passed as [string_to_number]; the product of two
    integers is exact while it stays within the safe range. *)
Definition ToNumber (string_to_number : string -> JsVal) (v : JsVal) : JsVal :=
  match v with
  | JUndefined => JNaN
  | JNull => JNum 0
  | JBool true => JNum 1
  | JBool false => JNum 0
  | JNum z => JNum z
  | JNaN => JNaN
  | JStr s => string_to_number s
  end.

Definition multiply (string_to_number : string -> JsVal) (a b : JsVal) : JsVal :=
  match ToNumber string_to_number a, ToNumber string_to_number b with
  | JNum x, JNum y => JNum (x * y)
  | _, _ => JNaN
  end.

(** ** Product configuration (server.js, lines 69-80) *)

Module Product.
Record t : Type := { price : Z; name : string; shippingRequired : bool }.
End Product.

Definition PRODUCTS : list (string * Product.t) :=
  [ ("digital", {| Product.price := 7900; Product.name := "Digital Only";
                   Product.shippingRequired := false |});
    ("print", {| Product.price := 18900; Product.name := "Fine-Art Print";
                 Product.shippingRequired := true |});
    ("framed", {| Product.price := 39900; Product.name := "Framed Edition";
                  Product.shippingRequired := true |}) ].

Definition VIBES : list (string * string) :=
  [ ("homeAlone", "Home Alone");
    ("elf", "Elf");
    ("vacation", "Christmas Vacation") ].

(** [!x] for the result of a lookup in PRODUCTS or VIBES: every own value
    of the two tables is truthy (an object, a non-empty string) and so is
    everything inherited from Object.prototype. *)
Definition slot_truthy {A : Type} (s : Slot A) : bool :=
  match s with
  | Own _ | Inherited _ => true
  | Missing => false
  end.

(** [product.price] and [product.name], where [product] is what
    [PRODUCTS[...]] evaluated to.  A built-in has no [price]; reading a
    property of undefined throws. *)
Definition member_price (product : Slot Product.t) : Completion JsVal :=
  match product with
  | Own p => Normal (JNum (Product.price p))
  | Inherited _ => Normal JUndefined
  | Missing => Throw (TypeError "Cannot read properties of undefined (reading 'price')")
  end.

Definition member_name (product : Slot Product.t) : Completion JsVal :=
  match product with
  | Own p => Normal (JStr (Product.name p))
  | Inherited key => Normal (builtin_name key)
  | Missing => Throw (TypeError "Cannot read properties of undefined (reading 'name')")
  end.

(** ** Records of the data model *)

(** An element of [db.data.orders] (server.js, lines 206-223). *)
Module Order.
Record t : Type := {
  id : JsVal;
  stripeSessionId : JsVal;
  stripePaymentIntent : JsVal;
  vibe : JsVal;
  tier : JsVal;
  quantity : JsVal;
  uploadId : JsVal;
  customerName : JsVal;
  customerEmail : JsVal;
  customerPhone : JsVal;
  shippingAddress : JsVal;
  notes : JsVal;
  amount : JsVal;
  status : JsVal;
  createdAt : string;
  updatedAt : string
}.

(** [order.status = status; order.updatedAt = now] *)
Definition set_status (o : t) (new_status : JsVal) (now : string) : t :=
  {| id := id o; stripeSessionId := stripeSessionId o;
     stripePaymentIntent := stripePaymentIntent o; vibe := vibe o;
     tier := tier o; quantity := quantity o; uploadId := uploadId o;
     customerName := customerName o; customerEmail := customerEmail o;
     customerPhone := customerPhone o; shippingAddress := shippingAddress o;
     notes := notes o; amount := amount o;
     status := new_status; createdAt := createdAt o; updatedAt := now |}.
End Order.

(** An element of [db.data.uploads] (server.js, lines 91-98). *)
Module Upload.
Record t : Type := {
  id : string;
  filename : string;
  originalName : string;
  path : string;
  size : Z;
  uploadedAt : string
}.
End Upload.

(** The body of POST /api/create-checkout after destructuring
    (lines 118-128).  Each field is a JSON scalar; a field the client left
    out is [JUndefined]. *)
Module CheckoutBody.
Record t : Type := {
  vibe : JsVal;
  tier : JsVal;
  quantity : JsVal;
  uploadId : JsVal;
  customerName : JsVal;
  customerEmail : JsVal;
  customerPhone : JsVal;
  shippingAddress : JsVal;
  notes : JsVal
}.
End CheckoutBody.

(** The argument of [stripe.checkout.sessions.create] (lines 147-177).
    The product label is the template [`${VIBES[vibe]} - ${product.name}`],
    kept as its two interpolated parts. *)
Module Params.
Record t : Type := {
  payment_method_types : list string;
  currency : string;
  label_vibe : Slot string;
  label_product : JsVal;
  description : string;
  unit_amount : JsVal;
  quantity : JsVal;
  mode : string;
  success_url : string;
  cancel_url : string;
  customer_email : JsVal;
  metadata : gmap string JsVal
}.
End Params.

(** What Stripe answers to a session creation, as far as it is used. *)
Module Created.
Record t : Type := { id : JsVal; url : JsVal }.
End Created.

(** [event.data.object] of a webhook event, as far as it is read
    (lines 207-219).  Stripe gives every session an id and a metadata
    object; a key the metadata does not have reads as undefined. *)
Module Session.
Record t : Type := {
  id : string;
  payment_intent : JsVal;
  customer_email : JsVal;
  amount_total : JsVal;
  metadata : gmap string JsVal
}.
End Session.

Module Event.
Record t : Type := { type : string; data_object : Session.t }.
End Event.

(** [metadata.key] *)
Definition meta (m : gmap string JsVal) (key : string) : JsVal :=
  default JUndefined (m !! key).

(** The argument of [transporter.sendMail]: which of the three templates,
    with the values interpolated into it. *)
Inductive MailOptions : Type :=
| OrderConfirmation (to : JsVal) (order : Order.t)
    (vibeName : Slot string) (productName : JsVal)
| InternalNotification (to : JsVal) (order : Order.t)
    (vibeName : Slot string) (productName : JsVal)
| StatusUpdate (to : JsVal) (idPrefix : string) (customerName : JsVal)
    (statusUpper : string) (statusMessage : Slot string) (orderId : JsVal).

(** ** Responses *)

Inductive Body : Type :=
| ErrorJson (error : string)
| Text (text : string)
| SessionJson (sessionId url : JsVal)
| ReceivedJson
| OrderJson (order : Order.t).

Record Response : Type := { code : Z; body : Body }.

(** [res.json(b)] answers with status 200. *)
Definition json (b : Body) : Response := {| code := 200; body := b |}.
Definition status_json (c : Z) (b : Body) : Response := {| code := c; body := b |}.

(** How a handler ends: it answers, or its promise rejects with nobody to
    catch it and no answer is sent. *)
Inductive Outcome : Type :=
| Responded (r : Response)
| Unhandled (e : Error).

(** ** The collaborators and the server state *)

(** Everything the handlers call that is not code of the repository: the
    environment variables, the Stripe client, the mail transport, the id
    generator, the clock and two engine built-ins.  The calls that can
    answer differently each time take the number of earlier calls. *)
Record Runtime : Type := {
  BASE_URL : JsVal;
  ADMIN_EMAIL : JsVal;
  STRIPE_WEBHOOK_SECRET : JsVal;
  constructEvent : string -> JsVal -> JsVal -> Completion Event.t;
  sessions_create : nat -> Params.t -> Completion Created.t;
  sendMail : nat -> MailOptions -> Completion unit;
  uuidv4 : nat -> string;
  toISOString_now : nat -> string;
  toUpperCase : string -> string;
  StringToNumber : string -> JsVal
}.

(** [db.data]: the two collections. *)
Record Db : Type := { orders : list Order.t; uploads : list Upload.t }.

(** The state the handlers run in: the lowdb document in memory, the
    content of db.json as last written, and what has been sent to the
    collaborators so far. *)
Record State : Type := {
  data : Db;
  file : Db;
  stripe_requests : list Params.t;
  mail_attempts : list MailOptions;
  console : list (string * string);
  uuids_drawn : nat;
  clock_reads : nat
}.

(** [db.data ||= { orders: [], uploads: [] }] on a fresh db.json. *)
Definition initial : State :=
  {| data := {| orders := []; uploads := [] |};
     file := {| orders := []; uploads := [] |};
     stripe_requests := []; mail_attempts := []; console := [];
     uuids_drawn := 0; clock_reads := 0 |}.

(** *** A state monad with exceptions *)

Definition M (A : Type) : Type := State -> Completion A * State.

Definition ret {A : Type} (a : A) : M A := fun st => (Normal a, st).

Definition bind {A B : Type} (m : M A) (k : A -> M B) : M B :=
  fun st =>
    match m st with
    | (Normal a, st') => k a st'
    | (Throw e, st') => (Throw e, st')
    end.

Definition lift {A : Type} (c : Completion A) : M A := fun st => (c, st).

(** [try { body } catch (error) { handler }] *)
Definition try_catch {A : Type} (body : M A) (handler : Error -> M A) : M A :=
  fun st =>
    match body st with
    | (Normal a, st') => (Normal a, st')
    | (Throw e, st') => handler e st'
    end.

Declare Scope handler_scope.
Delimit Scope handler_scope with handler.
Notation "'let*' x ':=' m 'in' k" := (bind m (fun x => k))
  (at level 10, x name, m at level 100, k at level 200) : handler_scope.
Notation "m ';;' k" := (bind m (fun _ => k))
  (at level 100, k at level 200, right associativity) : handler_scope.
Open Scope handler_scope.

(** The end of an async handler with no try around it. *)
Definition run (m : M Response) : State -> Outcome * State :=
  fun st =>
    match m st with
    | (Normal r, st') => (Responded r, st')
    | (Throw e, st') => (Unhandled e, st')
    end.

(** *** Primitive effects *)

Definition set_data (st : State) (d : Db) : State :=
  {| data := d; file := file st; stripe_requests := stripe_requests st;
     mail_attempts := mail_attempts st; console := console st;
     uuids_drawn := uuids_drawn st; clock_reads := clock_reads st |}.

(** [console.error(label, text)] *)
Definition console_error (label text : string) : M unit :=
  fun st =>
    (Normal tt,
     {| data := data st; file := file st; stripe_requests := stripe_requests st;
        mail_attempts := mail_attempts st;
        console := console st ++ [(label, text)];
        uuids_drawn := uuids_drawn st; clock_reads := clock_reads st |}).

(** [new Date().toISOString()] *)
Definition now (rt : Runtime) : M string :=
  fun st =>
    (Normal (toISOString_now rt (clock_reads st)),
     {| data := data st; file := file st; stripe_requests := stripe_requests st;
        mail_attempts := mail_attempts st; console := console st;
        uuids_drawn := uuids_drawn st; clock_reads := S (clock_reads st) |}).

(** [uuidv4()] *)
Definition fresh_uuid (rt : Runtime) : M string :=
  fun st =>
    (Normal (uuidv4 rt (uuids_drawn st)),
     {| data := data st; file := file st; stripe_requests := stripe_requests st;
        mail_attempts := mail_attempts st; console := console st;
        uuids_drawn := S (uuids_drawn st); clock_reads := clock_reads st |}).

(** [db.data.orders.push(order)] *)
Definition push_order (order : Order.t) : M unit :=
  fun st =>
    (Normal tt,
     set_data st {| orders := orders (data st) ++ [order];
                    uploads := uploads (data st) |}).

(** [await db.write()]: db.json takes the content of [db.data].  The write
    is taken to succeed. *)
Definition db_write : M unit :=
  fun st =>
    (Normal tt,
     {| data := data st; file := data st; stripe_requests := stripe_requests st;
        mail_attempts := mail_attempts st; console := console st;
        uuids_drawn := uuids_drawn st; clock_reads := clock_reads st |}).

(** [await stripe.checkout.sessions.create(params)] *)
Definition stripe_create (rt : Runtime) (params : Params.t) : M Created.t :=
  fun st =>
    (sessions_create rt (length (stripe_requests st)) params,
     {| data := data st; file := file st;
        stripe_requests := stripe_requests st ++ [params];
        mail_attempts := mail_attempts st; console := console st;
        uuids_drawn := uuids_drawn st; clock_reads := clock_reads st |}).

(** [await transporter.sendMail(mailOptions)] *)
Definition transporter_sendMail (rt : Runtime) (mail : MailOptions) : M unit :=
  fun st =>
    (sendMail rt (length (mail_attempts st)) mail,
     {| data := data st; file := file st; stripe_requests := stripe_requests st;
        mail_attempts := mail_attempts st ++ [mail]; console := console st;
        uuids_drawn := uuids_drawn st; clock_reads := clock_reads st |}).

(** ** Email functions (server.js, lines 299-418) *)

(** [sendOrderConfirmation(order)].  The two names are looked up before
    the try block, so a tier that [PRODUCTS] does not have makes the
    function throw; a failure of [sendMail] itself is caught and logged. *)
Definition sendOrderConfirmation (rt : Runtime) (order : Order.t) : M unit :=
  let vibeName := get VIBES (Order.vibe order) in
  let* productName := lift (member_name (get PRODUCTS (Order.tier order))) in
  let mailOptions :=
    OrderConfirmation (Order.customerEmail order) order vibeName productName in
  try_catch (transporter_sendMail rt mailOptions)
            (fun error => console_error "Email error:" (message error)).

(** [sendInternalNotification(order)] *)
Definition sendInternalNotification (rt : Runtime) (order : Order.t) : M unit :=
  let vibeName := get VIBES (Order.vibe order) in
  let* productName := lift (member_name (get PRODUCTS (Order.tier order))) in
  let mailOptions :=
    InternalNotification (ADMIN_EMAIL rt) order vibeName productName in
  try_catch (transporter_sendMail rt mailOptions)
            (fun error => console_error "Internal email error:" (message error)).

Definition statusMessages : list (string * string) :=
  [ ("pending", "Your order is being processed.");
    ("designing", "Our team is creating your custom poster!");
    ("proof_ready", "Your proof is ready for review! Check your email for the preview.");
    ("approved", "Your design has been approved and is being prepared.");
    ("printing", "Your poster is being printed on museum-quality paper.");
    ("shipped", "Your order has shipped! Check your email for tracking info.");
    ("completed", "Your order is complete! We hope you love it.") ].

(** [order.status.toUpperCase()]: only a string has the method. *)
Definition method_toUpperCase (rt : Runtime) (v : JsVal) : Completion string :=
  match v with
  | JStr s => Normal (toUpperCase rt s)
  | JUndefined => Throw (TypeError "Cannot read properties of undefined (reading 'toUpperCase')")
  | JNull => Throw (TypeError "Cannot read properties of null (reading 'toUpperCase')")
  | _ => Throw (TypeError "order.status.toUpperCase is not a function")
  end.

(** [sendStatusUpdate(order)] *)
Definition sendStatusUpdate (rt : Runtime) (order : Order.t) : M unit :=
  let* idPrefix := lift (method_substring (Order.id order) 8) in
  let* statusUpper := lift (method_toUpperCase rt (Order.status order)) in
  let mailOptions :=
    StatusUpdate (Order.customerEmail order) idPrefix (Order.customerName order)
                 statusUpper (get statusMessages (Order.status order))
                 (Order.id order) in
  try_catch (transporter_sendMail rt mailOptions)
            (fun error => console_error "Status email error:" (message error)).

(** ** POST /api/create-checkout (server.js, lines 116-184) *)

(** The validation of lines 130-141: the answer it returns early with,
    if any. *)
Definition validate (b : CheckoutBody.t) : option Response :=
  if negb (truthy (CheckoutBody.vibe b)) || negb (truthy (CheckoutBody.tier b))
     || negb (truthy (CheckoutBody.quantity b))
     || negb (truthy (CheckoutBody.uploadId b))
     || negb (truthy (CheckoutBody.customerName b))
     || negb (truthy (CheckoutBody.customerEmail b))
  then Some (status_json 400 (ErrorJson "Missing required fields"))
  else if negb (slot_truthy (get PRODUCTS (CheckoutBody.tier b)))
  then Some (status_json 400 (ErrorJson "Invalid tier"))
  else if negb (slot_truthy (get VIBES (CheckoutBody.vibe b)))
  then Some (status_json 400 (ErrorJson "Invalid vibe"))
  else None.

(** [const totalAmount = product.price * quantity] (line 144) *)
Definition totalAmount (rt : Runtime) (price quantity : JsVal) : JsVal :=
  multiply (StringToNumber rt) price quantity.

(** The metadata object of lines 166-176. *)
Definition checkout_metadata (orderId quantity_string : string)
    (b : CheckoutBody.t) : gmap string JsVal :=
  <["orderId" := JStr orderId]>
  (<["vibe" := CheckoutBody.vibe b]>
  (<["tier" := CheckoutBody.tier b]>
  (<["quantity" := JStr quantity_string]>
  (<["uploadId" := CheckoutBody.uploadId b]>
  (<["customerName" := CheckoutBody.customerName b]>
  (<["customerPhone" := js_or (CheckoutBody.customerPhone b) (JStr "")]>
  (<["shippingAddress" := js_or (CheckoutBody.shippingAddress b) (JStr "")]>
  (<["notes" := js_or (CheckoutBody.notes b) (JStr "")]> ∅)))))))).

(** The argument built for [stripe.checkout.sessions.create]
    (lines 147-177), in evaluation order: the product label and the unit
    amount, then the fresh order id and [quantity.toString()]. *)
Definition checkout_params (rt : Runtime) (b : CheckoutBody.t) : M Params.t :=
  let product := get PRODUCTS (CheckoutBody.tier b) in
  let* price := lift (member_price product) in
  let total := totalAmount rt price (CheckoutBody.quantity b) in
  let* productName := lift (member_name product) in
  let* unit_amount := lift (member_price product) in
  let* orderId := fresh_uuid rt in
  let* quantity_string := lift (method_toString (CheckoutBody.quantity b)) in
  ret {| Params.payment_method_types := ["card"];
         Params.currency := "usd";
         Params.label_vibe := get VIBES (CheckoutBody.vibe b);
         Params.label_product := productName;
         Params.description := "Custom holiday movie poster";
         Params.unit_amount := unit_amount;
         Params.quantity := CheckoutBody.quantity b;
         Params.mode := "payment";
         Params.success_url :=
           ToString (BASE_URL rt) ++ "/success?session_id={CHECKOUT_SESSION_ID}";
         Params.cancel_url := ToString (BASE_URL rt) ++ "/cancel";
         Params.customer_email := CheckoutBody.customerEmail b;
         Params.metadata := checkout_metadata orderId quantity_string b |}.

Definition create_checkout (rt : Runtime) (b : CheckoutBody.t)
    : State -> Outcome * State :=
  run (try_catch
         (match validate b with
          | Some rejection => ret rejection
          | None =>
              let* params := checkout_params rt b in
              let* session := stripe_create rt params in
              ret (json (SessionJson (Created.id session) (Created.url session)))
          end)
         (fun error =>
            console_error "Checkout error:" (message error) ;;
            ret (status_json 500 (ErrorJson "Failed to create checkout session")))).

(** ** POST /api/webhook (server.js, lines 186-236) *)

(** The order record of lines 206-223. *)
Definition order_of_session (session : Session.t) (created updated : string)
    : Order.t :=
  let metadata := Session.metadata session in
  {| Order.id := meta metadata "orderId";
     Order.stripeSessionId := JStr (Session.id session);
     Order.stripePaymentIntent := Session.payment_intent session;
     Order.vibe := meta metadata "vibe";
     Order.tier := meta metadata "tier";
     Order.quantity := parseInt (meta metadata "quantity");
     Order.uploadId := meta metadata "uploadId";
     Order.customerName := meta metadata "customerName";
     Order.customerEmail := Session.customer_email session;
     Order.customerPhone := meta metadata "customerPhone";
     Order.shippingAddress := meta metadata "shippingAddress";
     Order.notes := meta metadata "notes";
     Order.amount := Session.amount_total session;
     Order.status := JStr "pending";
     Order.createdAt := created;
     Order.updatedAt := updated |}.

(** [req.body] is the raw payload, [sig] the stripe-signature header. *)
Definition webhook (rt : Runtime) (payload : string) (sig : JsVal)
    : State -> Outcome * State :=
  run (match constructEvent rt payload sig (STRIPE_WEBHOOK_SECRET rt) with
       | Throw err =>
           console_error "Webhook error:" (message err) ;;
           ret (status_json 400 (Text ("Webhook Error: " ++ message err)))
       | Normal event =>
           (if String.eqb (Event.type event) "checkout.session.completed"
            then
              let session := Event.data_object event in
              let* created := now rt in
              let* updated := now rt in
              let order := order_of_session session created updated in
              push_order order ;;
              db_write ;;
              sendOrderConfirmation rt order ;;
              sendInternalNotification rt order
            else ret tt) ;;
           ret (json ReceivedJson)
       end).

(** ** PATCH /api/admin/orders/:orderId (server.js, lines 275-297) *)

(** [orders.find(p)]: the first element that satisfies [p], with its
    position, which stands for the reference the handler then writes
    through. *)
Fixpoint find_ref (p : Order.t -> bool) (l : list Order.t) : option (nat * Order.t) :=
  match l with
  | [] => None
  | o :: rest =>
      if p o then Some (O, o)
      else match find_ref p rest with
           | Some (i, found) => Some (S i, found)
           | None => None
           end
  end.

(** [order.status = status; order.updatedAt = ...] through the reference. *)
Definition assign_status (i : nat) (updated : Order.t) : M unit :=
  fun st =>
    (Normal tt,
     set_data st {| orders := <[i := updated]> (orders (data st));
                    uploads := uploads (data st) |}).

(** [o => o.id === req.params.orderId] *)
Definition has_id (orderId : string) (o : Order.t) : bool :=
  strict_eq (Order.id o) (JStr orderId).

(** [status] is [req.body.status], [JUndefined] when the body has none. *)
Definition update_status (rt : Runtime) (orderId : string) (status : JsVal)
    : State -> Outcome * State :=
  run (try_catch
         (fun st =>
            match find_ref (has_id orderId) (orders (data st)) with
            | None => ret (status_json 404 (ErrorJson "Order not found")) st
            | Some (i, order) =>
                (let* updatedAt := now rt in
                 let order' := Order.set_status order status updatedAt in
                 assign_status i order' ;;
                 db_write ;;
                 sendStatusUpdate rt order' ;;
                 ret (json (OrderJson order'))) st
            end)
         (fun error =>
            console_error "Order update error:" (message error) ;;
            ret (status_json 500 (ErrorJson "Failed to update order")))).

(** ** GET /api/order/:sessionId, the store side (line 242) *)

Definition order_by_session (sessionId : string) (st : State) : option Order.t :=
  option_map snd
    (find_ref (fun o => strict_eq (Order.stripeSessionId o) (JStr sessionId))
              (orders (data st))).

(** The orders of the store that carry a given payment-session id. *)
Definition orders_of_session (sessionId : JsVal) (st : State) : list Order.t :=
  List.filter (fun o => strict_eq (Order.stripeSessionId o) sessionId)
              (orders (data st)).

(** ** Valid requests and the events that answer them *)

(** A tier or theme code of the catalog: an own key of the table. *)
Definition catalog_key {A : Type} (table : list (string * A)) (code : string) : Prop :=
  is_Some (assoc code table).

(** A checkout intent as the data model describes it: theme and tier of
    the catalog, a positive integer quantity, an upload id, a customer name
    and email, and phone, address and notes that may be left out. *)
Definition optional_text (v : JsVal) : Prop :=
  v = JUndefined \/ exists s, v = JStr s.

Record valid_intent (b : CheckoutBody.t) : Prop := {
  intent_vibe : exists code, CheckoutBody.vibe b = JStr code /\ catalog_key VIBES code;
  intent_tier : exists code, CheckoutBody.tier b = JStr code /\ catalog_key PRODUCTS code;
  intent_quantity :
    exists q, CheckoutBody.quantity b = JNum q /\ 0 < q <= MAX_SAFE_INTEGER;
  intent_uploadId : exists s, CheckoutBody.uploadId b = JStr s /\ s <> "";
  intent_customerName : exists s, CheckoutBody.customerName b = JStr s /\ s <> "";
  intent_customerEmail : exists s, CheckoutBody.customerEmail b = JStr s /\ s <> "";
  intent_customerPhone : optional_text (CheckoutBody.customerPhone b);
  intent_shippingAddress : optional_text (CheckoutBody.shippingAddress b);
  intent_notes : optional_text (CheckoutBody.notes b)
}.

(** A code that names nothing on an object literal: neither an own key of
    the table nor a name found on Object.prototype. *)
Definition unknown_code {A : Type} (table : list (string * A)) (v : JsVal) : Prop :=
  ~ catalog_key table (ToString v) /\ ~ In (ToString v) ObjectPrototype_keys.

(** One of the six required fields of a checkout request is absent or
    otherwise falsy. *)
Definition missing_required (b : CheckoutBody.t) : Prop :=
  truthy (CheckoutBody.vibe b) = false \/ truthy (CheckoutBody.tier b) = false
  \/ truthy (CheckoutBody.quantity b) = false
  \/ truthy (CheckoutBody.uploadId b) = false
  \/ truthy (CheckoutBody.customerName b) = false
  \/ truthy (CheckoutBody.customerEmail b) = false.

(** An optional text as an order holds it: the text, or the empty string
    for one the intent left out. *)
Definition or_empty (v : JsVal) : JsVal :=
  match v with
  | JUndefined => JStr ""
  | _ => v
  end.

(** Modelled from the spec: the payment processor, which is not code of
    the repository.  A completed-session event corresponds to a session
    request when it carries the metadata map and the customer email of the
    request back unchanged, and the total of its one line item. *)
Definition line_total (p : Params.t) : JsVal :=
  match Params.unit_amount p, Params.quantity p with
  | JNum unit, JNum n => JNum (unit * n)
  | _, _ => JNaN
  end.

Record echoes (session : Session.t) (p : Params.t) : Prop := {
  echo_metadata : Session.metadata session = Params.metadata p;
  echo_customer_email : Session.customer_email session = Params.customer_email p;
  echo_amount_total : Session.amount_total session = line_total p
}.

(** The seven documented status labels. *)
Definition documented_status (s : string) : Prop := catalog_key statusMessages s.

(** ** The effects of the handlers, written out

    The states the evaluation lemmas below name. *)

(** The state once [db.data] has become [d], has been written to db.json,
    and the clock has been read [reads] more times. *)
Definition stored (st : State) (d : Db) (reads : nat) : State :=
  {| data := d; file := d; stripe_requests := stripe_requests st;
     mail_attempts := mail_attempts st; console := console st;
     uuids_drawn := uuids_drawn st; clock_reads := (reads + clock_reads st)%nat |}.

(** What a send leaves on the console: nothing, or the caught error under
    the label of the catch block. *)
Definition mail_errors (rt : Runtime) (label : string) (mail : MailOptions)
    (st : State) : list (string * string) :=
  match sendMail rt (length (mail_attempts st)) mail with
  | Normal _ => []
  | Throw e => [(label, message e)]
  end.

(** The state after [try { await sendMail(mail) } catch { console.error }]. *)
Definition after_mail (rt : Runtime) (label : string) (mail : MailOptions)
    (st : State) : State :=
  {| data := data st; file := file st; stripe_requests := stripe_requests st;
     mail_attempts := mail_attempts st ++ [mail];
     console := console st ++ mail_errors rt label mail st;
     uuids_drawn := uuids_drawn st; clock_reads := clock_reads st |}.

(** The state after a caught error has been logged. *)
Definition logged (st : State) (label text : string) : State :=
  {| data := data st; file := file st; stripe_requests := stripe_requests st;
     mail_attempts := mail_attempts st;
     console := console st ++ [(label, text)];
     uuids_drawn := uuids_drawn st; clock_reads := clock_reads st |}.

(** The state after [uuidv4()] has been called once more, and after a
    request has then been sent to Stripe. *)
Definition drawn (st : State) : State :=
  {| data := data st; file := file st; stripe_requests := stripe_requests st;
     mail_attempts := mail_attempts st; console := console st;
     uuids_drawn := S (uuids_drawn st); clock_reads := clock_reads st |}.

Definition requested (st : State) (params : Params.t) : State :=
  {| data := data st; file := file st;
     stripe_requests := stripe_requests st ++ [params];
     mail_attempts := mail_attempts st; console := console st;
     uuids_drawn := S (uuids_drawn st); clock_reads := clock_reads st |}.

(** [db.data] with one more order, and with the order at a position
    replaced. *)
Definition with_order (d : Db) (order : Order.t) : Db :=
  {| orders := orders d ++ [order]; uploads := uploads d |}.

Definition with_order_at (d : Db) (i : nat) (order : Order.t) : Db :=
  {| orders := <[i := order]> (orders d); uploads := uploads d |}.

(** The order a delivery builds in state [st]: its two timestamps are the
    next two readings of the clock. *)
Definition delivered_order (rt : Runtime) (session : Session.t) (st : State)
    : Order.t :=
  order_of_session session (toISOString_now rt (clock_reads st))
                   (toISOString_now rt (S (clock_reads st))).

(** The two mails of a new order. *)
Definition confirmation_mail (order : Order.t) (productName : JsVal) : MailOptions :=
  OrderConfirmation (Order.customerEmail order) order
                    (get VIBES (Order.vibe order)) productName.

Definition internal_mail (rt : Runtime) (order : Order.t) (productName : JsVal)
    : MailOptions :=
  InternalNotification (ADMIN_EMAIL rt) order
                       (get VIBES (Order.vibe order)) productName.

(** The mail that describes the status of [order]. *)
Definition status_mail (rt : Runtime) (order : Order.t) (orderId status : string)
    : MailOptions :=
  StatusUpdate (Order.customerEmail order) (substring 0 8 orderId)
               (Order.customerName order) (toUpperCase rt status)
               (get statusMessages (JStr status)) (JStr orderId).

(** The customer confirmations among the mails handed to the transport. *)
Definition is_confirmation (mail : MailOptions) : bool :=
  match mail with
  | OrderConfirmation _ _ _ _ => true
  | _ => false
  end.

Definition confirmations (st : State) : list MailOptions :=
  List.filter is_confirmation (mail_attempts st).

(** The state after [n] deliveries of the same signed payload. *)
Fixpoint deliveries (rt : Runtime) (payload : string) (sig : JsVal) (n : nat)
    (st : State) : State :=
  match n with
  | O => st
  | S n' => deliveries rt payload sig n' (snd (webhook rt payload sig st))
  end.

(** The outcome of a handler and the store it leaves, in memory and in
    db.json. *)
Definition result (run : Outcome * State) : Outcome * Db * Db :=
  (fst run, data (snd run), file (snd run)).

(** The same collaborators with another mail transport. *)
Definition with_sendMail (rt : Runtime)
    (send : nat -> MailOptions -> Completion unit) : Runtime :=
  {| BASE_URL := BASE_URL rt; ADMIN_EMAIL := ADMIN_EMAIL rt;
     STRIPE_WEBHOOK_SECRET := STRIPE_WEBHOOK_SECRET rt;
     constructEvent := constructEvent rt; sessions_create := sessions_create rt;
     sendMail := send; uuidv4 := uuidv4 rt;
     toISOString_now := toISOString_now rt; toUpperCase := toUpperCase rt;
     StringToNumber := StringToNumber rt |}.

(** ** A test double of the collaborators

    Used to run the handlers on concrete requests. *)
Module Demo.

Definition upper_ascii (c : ascii) : ascii :=
  let n := N_of_ascii c in
  if ((97 <=? n) && (n <=? 122))%N then ascii_of_N (n - 32) else c.

Fixpoint upper (s : string) : string :=
  match s with
  | EmptyString => EmptyString
  | String c rest => String (upper_ascii c) (upper rest)
  end.

(** The session of a paid checkout for two fine-art prints. *)
Definition paid_metadata : gmap string JsVal :=
  <["orderId" := JStr "8f14e45f-ceea-467f-a0e6-5a1d2b9c3e77"]>
  (<["vibe" := JStr "elf"]>
  (<["tier" := JStr "print"]>
  (<["quantity" := JStr "2"]>
  (<["uploadId" := JStr "c9f0f895-fb98-4ab9-9f51-fd0297e236d8"]>
  (<["customerName" := JStr "Kevin McCallister"]>
  (<["customerPhone" := JStr ""]>
  (<["shippingAddress" := JStr "671 Lincoln Ave, Winnetka IL"]>
  (<["notes" := JStr ""]> ∅)))))))).

Definition paid_session : Session.t :=
  {| Session.id := "cs_test_a1B2c3";
     Session.payment_intent := JStr "pi_3Nabc";
     Session.customer_email := JStr "kevin@example.com";
     Session.amount_total := JNum 37800;
     Session.metadata := paid_metadata |}.

Definition completed_event : Event.t :=
  {| Event.type := "checkout.session.completed";
     Event.data_object := paid_session |}.

Definition other_event : Event.t :=
  {| Event.type := "payment_intent.succeeded";
     Event.data_object :=
       {| Session.id := "pi_3Nabc"; Session.payment_intent := JUndefined;
          Session.customer_email := JUndefined; Session.amount_total := JUndefined;
          Session.metadata := ∅ |} |}.

(** Accepts the one signature ["t=1,v1=good"]; the payload names the
    event. *)
Definition verify (payload : string) (sig secret : JsVal) : Completion Event.t :=
  if strict_eq sig (JStr "t=1,v1=good") then
    if String.eqb payload "completed" then Normal completed_event
    else Normal other_event
  else Throw (StripeError
    "No signatures found matching the expected signature for payload.").

(** Opens a session when the unit amount is a non-negative integer and
    the quantity a positive one, and refuses the request otherwise. *)
Definition create_session (n : nat) (p : Params.t) : Completion Created.t :=
  match Params.unit_amount p, Params.quantity p with
  | JNum unit, JNum q =>
      if (0 <=? unit) && (0 <? q) then
        Normal {| Created.id := JStr ("cs_test_" ++ Z_toString (Z.of_nat n));
                  Created.url := JStr "https://checkout.stripe.example/pay" |}
      else Throw (StripeError "This value must be greater than or equal to 1.")
  | _, _ => Throw (StripeError "Invalid integer")
  end.

Definition runtime : Runtime :=
  {| BASE_URL := JStr "https://jaysframes.example";
     ADMIN_EMAIL := JStr "orders@jaysframes.example";
     STRIPE_WEBHOOK_SECRET := JStr "whsec_test";
     constructEvent := verify;
     sessions_create := create_session;
     sendMail := fun _ _ => Normal tt;
     uuidv4 := fun n => "00000000-0000-4000-8000-" ++ Z_toString (Z.of_nat n);
     toISOString_now := fun n => "2024-12-01T10:00:00." ++ Z_toString (Z.of_nat n) ++ "Z";
     toUpperCase := upper;
     StringToNumber := parseInt_string |}.

(** A mail transport of which every send fails. *)
Definition mail_down : nat -> MailOptions -> Completion unit :=
  fun _ _ => Throw (MailError "connect ECONNREFUSED").

(** A checkout request for two fine-art prints. *)
Definition checkout_body : CheckoutBody.t :=
  {| CheckoutBody.vibe := JStr "elf";
     CheckoutBody.tier := JStr "print";
     CheckoutBody.quantity := JNum 2;
     CheckoutBody.uploadId := JStr "c9f0f895-fb98-4ab9-9f51-fd0297e236d8";
     CheckoutBody.customerName := JStr "Kevin McCallister";
     CheckoutBody.customerEmail := JStr "kevin@example.com";
     CheckoutBody.customerPhone := JUndefined;
     CheckoutBody.shippingAddress := JStr "671 Lincoln Ave, Winnetka IL";
     CheckoutBody.notes := JUndefined |}.

Definition with_tier (b : CheckoutBody.t) (tier : JsVal) : CheckoutBody.t :=
  {| CheckoutBody.vibe := CheckoutBody.vibe b; CheckoutBody.tier := tier;
     CheckoutBody.quantity := CheckoutBody.quantity b;
     CheckoutBody.uploadId := CheckoutBody.uploadId b;
     CheckoutBody.customerName := CheckoutBody.customerName b;
     CheckoutBody.customerEmail := CheckoutBody.customerEmail b;
     CheckoutBody.customerPhone := CheckoutBody.customerPhone b;
     CheckoutBody.shippingAddress := CheckoutBody.shippingAddress b;
     CheckoutBody.notes := CheckoutBody.notes b |}.

Definition with_quantity (b : CheckoutBody.t) (quantity : JsVal) : CheckoutBody.t :=
  {| CheckoutBody.vibe := CheckoutBody.vibe b; CheckoutBody.tier := CheckoutBody.tier b;
     CheckoutBody.quantity := quantity;
     CheckoutBody.uploadId := CheckoutBody.uploadId b;
     CheckoutBody.customerName := CheckoutBody.customerName b;
     CheckoutBody.customerEmail := CheckoutBody.customerEmail b;
     CheckoutBody.customerPhone := CheckoutBody.customerPhone b;
     CheckoutBody.shippingAddress := CheckoutBody.shippingAddress b;
     CheckoutBody.notes := CheckoutBody.notes b |}.

(** The store after one delivery of the completed event. *)
Definition after_one_delivery : State :=
  snd (webhook runtime "completed" (JStr "t=1,v1=good") initial).

End Demo.

(** ** The other routes

    The upload route, the order query and the admin list, with the answers
    they give.  They end in a try/catch like the PATCH handler. *)

(** [req.file] as multer leaves it for the upload handler
    (lines 91-96 read these properties). *)
Module File.
Record t : Type := {
  filename : string;
  originalname : string;
  path : string;
  size : Z
}.
End File.

(** What [stripe.checkout.sessions.retrieve] answers, as far as it is read
    (lines 251-252). *)
Module Retrieved.
Record t : Type := { payment_status : JsVal; customer_email : JsVal }.
End Retrieved.

(** The bodies these routes answer with. *)
Inductive Payload : Type :=
| FailureJson (error : string)
| UploadedJson (uploadId filename url : string)
| OrderDetailsJson (order : Order.t) (paymentStatus customerEmail : JsVal)
| OrdersJson (orders : list Order.t).

Record Reply : Type := { reply_code : Z; reply_body : Payload }.

Definition reply_json (b : Payload) : Reply := {| reply_code := 200; reply_body := b |}.
Definition reply_status (c : Z) (b : Payload) : Reply :=
  {| reply_code := c; reply_body := b |}.

(** How one of these handlers ends. *)
Inductive Ended : Type :=
| Answered (r : Reply)
| Rejected (e : Error).

Definition finish (m : M Reply) : State -> Ended * State :=
  fun st =>
    match m st with
    | (Normal r, st') => (Answered r, st')
    | (Throw e, st') => (Rejected e, st')
    end.

(** *** File upload configuration (server.js, lines 40-62) *)

(** The filename callback of the disk storage (lines 45-48):
    [`${uuidv4()}-${file.originalname}`]. *)
Definition storage_filename (rt : Runtime) (originalname : string) : M string :=
  let* unique := fresh_uuid rt in
  ret (unique ++ "-" ++ originalname).

(** The destination callback (lines 42-44). *)
Definition storage_destination : string := "uploads/".

Definition allowedTypes : list string :=
  [ "image/jpeg"; "image/png"; "image/webp"; "image/heic" ].

(** What the file filter hands to its callback (lines 54-61):
    [cb(null, true)] or [cb(new Error('Invalid file type'))]. *)
Inductive Verdict : Type :=
| Accept
| Refuse (message : string).

Definition fileFilter (mimetype : string) : Verdict :=
  if existsb (String.eqb mimetype) allowedTypes then Accept
  else Refuse "Invalid file type".

(** The part named photo of an upload request, as the multipart parser
    hands it to multer: its file name and declared type, the number of
    bytes received, and whether the stream reached [limits.fileSize]
    (line 53), in which case the parser raises its limit event. *)
Module Part.
Record t : Type := {
  originalname : string;
  mimetype : string;
  size : Z;
  limit_reached : bool
}.
End Part.

(** How [upload.single('photo')] leaves the request: with [req.file] set
    or not, or with an error handed to Express, in which case the handler of
    the route is not called. *)
Inductive Uploaded : Type :=
| Passed (file : option File.t)
| Failed (message : string).

(** [upload.single('photo')] with the configuration of lines 40-62: the
    file filter is asked first; for an accepted file the storage asks the
    filename callback, which draws a uuid, and writes the stream to
    [uploads/]; a stream that reaches the size limit is then given up with
    multer's File too large.  A request without the part goes on with no
    [req.file]. *)
Definition upload_single (rt : Runtime) (part : option Part.t)
    : State -> Uploaded * State :=
  fun st =>
    match part with
    | None => (Passed None, st)
    | Some p =>
        match fileFilter (Part.mimetype p) with
        | Refuse message => (Failed message, st)
        | Accept =>
            match storage_filename rt (Part.originalname p) st with
            | (Normal filename, st') =>
                if Part.limit_reached p then (Failed "File too large", st')
                else
                  (Passed (Some {| File.filename := filename;
                                   File.originalname := Part.originalname p;
                                   File.path := storage_destination ++ filename;
                                   File.size := Part.size p |}),
                   st')
            | (Throw e, st') => (Failed (message e), st')
            end
        end
    end.

(** *** POST /api/upload (server.js, lines 84-113) *)

(** [db.data.uploads.push(uploadData)] *)
Definition push_upload (u : Upload.t) : M unit :=
  fun st =>
    (Normal tt,
     set_data st {| orders := orders (data st);
                    uploads := uploads (data st) ++ [u] |}).

(** The handler of the route (lines 85-113), which runs after
    [upload.single('photo')]: [file] is [req.file], [None] when the request
    carried no photo. *)
Definition upload_photo (rt : Runtime) (file : option File.t)
    : State -> Ended * State :=
  finish (try_catch
            (match file with
             | None => ret (reply_status 400 (FailureJson "No file uploaded"))
             | Some f =>
                 let* id := fresh_uuid rt in
                 let* uploadedAt := now rt in
                 let uploadData :=
                   {| Upload.id := id;
                      Upload.filename := File.filename f;
                      Upload.originalName := File.originalname f;
                      Upload.path := File.path f;
                      Upload.size := File.size f;
                      Upload.uploadedAt := uploadedAt |} in
                 push_upload uploadData ;;
                 db_write ;;
                 ret (reply_json
                        (UploadedJson (Upload.id uploadData)
                                      (Upload.filename uploadData)
                                      ("/uploads/" ++ Upload.filename uploadData)))
             end)
            (fun error =>
               console_error "Upload error:" (message error) ;;
               ret (reply_status 500 (FailureJson "Upload failed")))).

(** How the upload route ends: its handler ran, or multer handed an error
    to Express and the handler did not run. *)
Inductive UploadEnd : Type :=
| Handled (e : Ended)
| HandedToExpress (message : string).

(** The route: [upload.single('photo')], then the handler. *)
Definition upload_route (rt : Runtime) (part : option Part.t)
    : State -> UploadEnd * State :=
  fun st =>
    match upload_single rt part st with
    | (Passed file, st') =>
        (Handled (fst (upload_photo rt file st')), snd (upload_photo rt file st'))
    | (Failed message, st') => (HandedToExpress message, st')
    end.

(** *** GET /api/order/:sessionId (server.js, lines 238-259) *)

(** [retrieved] is how [stripe.checkout.sessions.retrieve(sessionId)]
    completes for this request; it is awaited before the store is read. *)
Definition get_order (retrieved : Completion Retrieved.t) (sessionId : string)
    : State -> Ended * State :=
  finish (try_catch
            (let* session := lift retrieved in
             fun st =>
               match order_by_session sessionId st with
               | None => ret (reply_status 404 (FailureJson "Order not found")) st
               | Some order =>
                   ret (reply_json
                          (OrderDetailsJson order
                             (Retrieved.payment_status session)
                             (Retrieved.customer_email session))) st
               end)
            (fun error =>
               console_error "Order fetch error:" (message error) ;;
               ret (reply_status 500 (FailureJson "Failed to fetch order")))).

(** *** GET /api/admin/orders (server.js, lines 261-273) *)

(** [new Date(b.createdAt) - new Date(a.createdAt)], where [getTime] gives
    the time value of a date string and [None] for one that is no date
    (the difference is then NaN). *)
Definition compare_created (getTime : string -> option Z) (a b : Order.t)
    : option Z :=
  match getTime (Order.createdAt b), getTime (Order.createdAt a) with
  | Some tb, Some ta => Some (tb - ta)
  | _, _ => None
  end.

(** Whether the comparator asks for [b] before [a]: its value is positive
    (NaN counts as 0). *)
Definition swaps (getTime : string -> option Z) (a b : Order.t) : bool :=
  match compare_created getTime a b with
  | Some v => 0 <? v
  | None => false
  end.

(** [Array.prototype.sort] with that comparator.  The sort is stable, and
    for a comparator that orders the elements consistently the result is
    the one a stable insertion sort gives. *)
Fixpoint insert_sorted (getTime : string -> option Z) (x : Order.t)
    (l : list Order.t) : list Order.t :=
  match l with
  | [] => [x]
  | y :: rest =>
      if swaps getTime x y then y :: insert_sorted getTime x rest
      else x :: y :: rest
  end.

Fixpoint sort_orders (getTime : string -> option Z) (l : list Order.t)
    : list Order.t :=
  match l with
  | [] => []
  | x :: rest => insert_sorted getTime x (sort_orders getTime rest)
  end.

(** The sort works in place on [db.data.orders]; nothing is written. *)
Definition list_orders (getTime : string -> option Z) : State -> Ended * State :=
  finish (try_catch
            (fun st =>
               let sorted := sort_orders getTime (orders (data st)) in
               ret (reply_json (OrdersJson sorted))
                   (set_data st {| orders := sorted; uploads := uploads (data st) |}))
            (fun error =>
               console_error "Orders fetch error:" (message error) ;;
               ret (reply_status 500 (FailureJson "Failed to fetch orders")))).

(** *** The server as a machine that takes requests *)

(** A request, with what the collaborators that keep no log here answer
    to it. *)
Inductive Request : Type :=
| PostUpload (part : option Part.t)
| PostCreateCheckout (body : CheckoutBody.t)
| PostWebhook (payload : string) (sig : JsVal)
| GetOrder (sessionId : string) (retrieved : Completion Retrieved.t)
| GetAdminOrders
| PatchAdminOrder (orderId : string) (status : JsVal).

(** The state a request leaves (for a webhook call whose promise rejects,
    the state it had reached). *)
Definition serve (rt : Runtime) (getTime : string -> option Z) (r : Request)
    (st : State) : State :=
  match r with
  | PostUpload part => snd (upload_route rt part st)
  | PostCreateCheckout body => snd (create_checkout rt body st)
  | PostWebhook payload sig => snd (webhook rt payload sig st)
  | GetOrder sessionId retrieved => snd (get_order retrieved sessionId st)
  | GetAdminOrders => snd (list_orders getTime st)
  | PatchAdminOrder orderId status => snd (update_status rt orderId status st)
  end.

Fixpoint serve_all (rt : Runtime) (getTime : string -> option Z)
    (requests : list Request) (st : State) : State :=
  match requests with
  | [] => st
  | r :: rest => serve_all rt getTime rest (serve rt getTime r st)
  end.

(** What of an order no handler ever rewrites: everything but its status
    and its updatedAt. *)
Definition identity_of (o : Order.t) : Order.t :=
  Order.set_status o JUndefined "".

(** The time of an order, for the orders whose createdAt is a date. *)
Definition created_time (getTime : string -> option Z) (o : Order.t) : Z :=
  default 0 (getTime (Order.createdAt o)).

(** Every createdAt of the list is a date. *)
Definition dated (getTime : string -> option Z) (l : list Order.t) : Prop :=
  Forall (fun o => is_Some (getTime (Order.createdAt o))) l.

(** [a] is at least as new as [b]. *)
Definition newer_eq (getTime : string -> option Z) (a b : Order.t) : Prop :=
  created_time getTime b <= created_time getTime a.

(** The orders of a list that were created at time [t]. *)
Definition created_at (getTime : string -> option Z) (t : Z) (l : list Order.t)
    : list Order.t :=
  List.filter (fun o => created_time getTime o =? t) l.

(** The number of webhook calls among the requests. *)
Fixpoint webhooks (requests : list Request) : nat :=
  match requests with
  | [] => O
  | PostWebhook _ _ :: rest => S (webhooks rest)
  | _ :: rest => webhooks rest
  end.

(** db.json holds the orders and the uploads of the memory, the orders
    possibly in another sequence. *)
Definition synced (st : State) : Prop :=
  orders (data st) ≡ₚ orders (file st)
  /\ uploads (data st) = uploads (file st).

(** The upload ids of the store are pairwise different and were all drawn
    from the generator. *)
Definition upload_ids_drawn (rt : Runtime) (st : State) : Prop :=
  NoDup (map Upload.id (uploads (data st)))
  /\ Forall (fun u => exists k, (k < uuids_drawn st)%nat /\ Upload.id u = uuidv4 rt k)
            (uploads (data st)).

(** A second set of test data, for the routes above. *)
Module DemoRoutes.

Definition photo_part : Part.t :=
  {| Part.originalname := "family.jpg";
     Part.mimetype := "image/jpeg";
     Part.size := 482113;
     Part.limit_reached := false |}.

Definition gif_part : Part.t :=
  {| Part.originalname := "tree.gif";
     Part.mimetype := "image/gif";
     Part.size := 20480;
     Part.limit_reached := false |}.

Definition paid : Retrieved.t :=
  {| Retrieved.payment_status := JStr "paid";
     Retrieved.customer_email := JStr "kevin@example.com" |}.

(** Reads the digits between the last dot and the final Z of the demo
    clock's strings as the time. *)
Definition getTime (s : string) : option Z :=
  match parseInt_string (substring 20 (String.length s - 21) s) with
  | JNum z => Some z
  | _ => None
  end.

(** A completed event whose metadata names no tier. *)
Definition foreign_event : Event.t :=
  {| Event.type := "checkout.session.completed";
     Event.data_object :=
       {| Session.id := "cs_test_foreign"; Session.payment_intent := JStr "pi_3Nxyz";
          Session.customer_email := JStr "buzz@example.com";
          Session.amount_total := JNum 5000; Session.metadata := ∅ |} |}.

(** The completed event that answers the first checkout of
    [Demo.checkout_body] on a fresh server: Stripe carries the metadata and
    the customer email of the request back, with the total of its line. *)
Definition echo_event : Event.t :=
  {| Event.type := "checkout.session.completed";
     Event.data_object :=
       {| Session.id := "cs_test_0"; Session.payment_intent := JStr "pi_3Nabc";
          Session.customer_email := JStr "kevin@example.com";
          Session.amount_total := JNum 37800;
          Session.metadata :=
            checkout_metadata "00000000-0000-4000-8000-0" "2" Demo.checkout_body |} |}.

Definition runtime : Runtime :=
  {| BASE_URL := BASE_URL Demo.runtime; ADMIN_EMAIL := ADMIN_EMAIL Demo.runtime;
     STRIPE_WEBHOOK_SECRET := STRIPE_WEBHOOK_SECRET Demo.runtime;
     constructEvent := fun payload sig secret =>
       if String.eqb payload "foreign" then Normal foreign_event
       else if String.eqb payload "echo" && strict_eq sig (JStr "t=1,v1=good")
       then Normal echo_event
       else Demo.verify payload sig secret;
     sessions_create := sessions_create Demo.runtime;
     sendMail := sendMail Demo.runtime; uuidv4 := uuidv4 Demo.runtime;
     toISOString_now := toISOString_now Demo.runtime;
     toUpperCase := toUpperCase Demo.runtime;
     StringToNumber := StringToNumber Demo.runtime |}.

(** The collaborators of [Demo] with a Stripe that cannot be reached. *)
Definition stripe_down : Runtime :=
  {| BASE_URL := BASE_URL Demo.runtime; ADMIN_EMAIL := ADMIN_EMAIL Demo.runtime;
     STRIPE_WEBHOOK_SECRET := STRIPE_WEBHOOK_SECRET Demo.runtime;
     constructEvent := constructEvent Demo.runtime;
     sessions_create := fun _ _ =>
       Throw (StripeError "An error occurred with our connection to Stripe.");
     sendMail := sendMail Demo.runtime; uuidv4 := uuidv4 Demo.runtime;
     toISOString_now := toISOString_now Demo.runtime;
     toUpperCase := toUpperCase Demo.runtime;
     StringToNumber := StringToNumber Demo.runtime |}.

End DemoRoutes.

(** * Properties *)

(** ** Decimal rendering and parseInt *)

Section Decimal.

Local Open Scope N_scope.

Ltac digit_cases d H :=
  assert (d = 0 \/ d = 1 \/ d = 2 \/ d = 3 \/ d = 4 \/ d = 5 \/ d = 6
          \/ d = 7 \/ d = 8 \/ d = 9) as Hcases by lia;
  clear H; repeat (destruct Hcases as [-> | Hcases]); try subst d.

Lemma digit_value_digit_char d :
  d < 10 -> digit_value 10 (digit_char d) = Some d.
Proof. intros H. digit_cases d H; reflexivity. Qed.

Lemma digit_char_not_whitespace d :
  d < 10 -> is_whitespace (digit_char d) = false.
Proof. intros H. digit_cases d H; reflexivity. Qed.

Lemma digits_of_small fuel n :
  n < 10 * 2 ^ N.of_nat fuel -> Forall (fun d => d < 10) (digits_of fuel n).
Proof.
  revert n. induction fuel as [| fuel IH]; intros n Hn.
  - simpl in *. constructor; [lia | constructor].
  - cbn [digits_of]. destruct (N.ltb_spec n 10) as [Hlt | Hge].
    + constructor; [exact Hlt | constructor].
    + apply Forall_app. split.
      * apply IH. rewrite Nat2N.inj_succ, N.pow_succ_r' in Hn.
        apply N.Div0.div_lt_upper_bound. lia.
      * constructor; [| constructor]. apply N.mod_lt. lia.
Qed.

Lemma digits_of_value fuel n :
  n < 10 * 2 ^ N.of_nat fuel ->
  fold_left decimal_step (digits_of fuel n) 0 = n.
Proof.
  revert n. induction fuel as [| fuel IH]; intros n Hn.
  - simpl. unfold decimal_step. lia.
  - cbn [digits_of]. destruct (N.ltb_spec n 10) as [Hlt | Hge].
    + simpl. unfold decimal_step. lia.
    + rewrite fold_left_app. cbn [fold_left]. rewrite IH.
      * unfold decimal_step. rewrite (N.div_mod n 10) at 3 by lia. lia.
      * rewrite Nat2N.inj_succ, N.pow_succ_r' in Hn.
        apply N.Div0.div_lt_upper_bound. lia.
Qed.

Lemma digits_of_nonempty fuel n : digits_of fuel n <> [].
Proof.
  destruct fuel; cbn [digits_of]; [discriminate |].
  destruct (n <? 10); [discriminate |].
  intros H. apply app_eq_nil in H. destruct H as [_ H]. discriminate.
Qed.

Lemma log2_fuel n : n < 10 * 2 ^ N.of_nat (N.to_nat (N.log2 n)).
Proof.
  rewrite N2Nat.id. destruct (N.eq_dec n 0) as [-> | Hn]; [reflexivity |].
  assert (n < 2 ^ N.succ (N.log2 n)) by (apply N.log2_spec; lia).
  rewrite N.pow_succ_r' in H. lia.
Qed.

Lemma read_digits_acc ds a :
  Forall (fun d => d < 10) ds ->
  read_digits 10 (string_of_digits ds) (Some a) = Some (fold_left decimal_step ds a).
Proof.
  intros H. revert a. induction H as [| d ds Hd _ IH]; intros a; [reflexivity |].
  unfold string_of_digits in *. cbn [map string_of_list_ascii read_digits].
  rewrite digit_value_digit_char by exact Hd. cbn [default]. apply IH.
Qed.

Lemma read_digits_start ds :
  Forall (fun d => d < 10) ds -> ds <> [] ->
  read_digits 10 (string_of_digits ds) None = Some (fold_left decimal_step ds 0).
Proof.
  intros H Hne. destruct H as [| d ds Hd Hds]; [congruence |].
  unfold string_of_digits. cbn [map string_of_list_ascii read_digits].
  rewrite digit_value_digit_char by exact Hd. cbn [default fold_left].
  apply (read_digits_acc ds (10 * 0 + d) Hds).
Qed.

(** A digit string has no white space, sign or hex prefix to strip. *)
Lemma digits_no_prefix ds :
  Forall (fun d => d < 10) ds ->
  trim_start (string_of_digits ds) = string_of_digits ds
  /\ strip_sign (string_of_digits ds) = (false, string_of_digits ds)
  /\ strip_hex_prefix (string_of_digits ds) = (10, string_of_digits ds).
Proof.
  intros H. destruct H as [| d ds Hd Hds]; [repeat split |].
  unfold string_of_digits. cbn [map string_of_list_ascii trim_start].
  rewrite digit_char_not_whitespace by exact Hd.
  split; [reflexivity |]. split.
  - digit_cases d Hd; reflexivity.
  - destruct Hds as [| d2 ds Hd2 _].
    + digit_cases d Hd; reflexivity.
    + cbn [map string_of_list_ascii].
      digit_cases d Hd; try reflexivity.
      digit_cases d2 Hd2; reflexivity.
Qed.

Lemma N_toString_shape n :
  trim_start (N_toString n) = N_toString n
  /\ strip_sign (N_toString n) = (false, N_toString n)
  /\ strip_hex_prefix (N_toString n) = (10, N_toString n)
  /\ read_digits 10 (N_toString n) None = Some n.
Proof.
  unfold N_toString.
  pose proof (digits_of_small _ _ (log2_fuel n)) as Hsmall.
  destruct (digits_no_prefix _ Hsmall) as (Htrim & Hsign & Hhex).
  repeat split; try assumption.
  rewrite read_digits_start by (auto using digits_of_nonempty).
  rewrite digits_of_value by apply log2_fuel. reflexivity.
Qed.

End Decimal.

(** Rendering an integer in decimal and reading it back with parseInt
    gives the integer again. *)
Lemma parseInt_Z_toString z : parseInt_string (Z_toString z) = JNum z.
Proof.
  destruct (N_toString_shape (Z.abs_N z)) as (Htrim & Hsign & Hhex & Hread).
  unfold Z_toString, parseInt_string.
  destruct (Z.ltb_spec z 0) as [Hneg | Hpos].
  - cbn [trim_start]. replace (is_whitespace "-") with false by reflexivity.
    cbn [strip_sign]. rewrite Hhex, Hread. f_equal. rewrite N2Z.inj_abs_N. lia.
  - rewrite Htrim, Hsign, Hhex, Hread. f_equal. rewrite N2Z.inj_abs_N. lia.
Qed.

(** ** Evaluation of the handlers *)

Lemma find_ref_None p l :
  find_ref p l = None <-> Forall (fun o => p o = false) l.
Proof.
  induction l as [| o l IH]; cbn [find_ref].
  - split; [constructor | reflexivity].
  - destruct (p o) eqn:Hp.
    + split; [discriminate |]. intros H. inversion H; congruence.
    + destruct (find_ref p l) as [[i found] |].
      * split; [discriminate |]. intros H. inversion H; subst.
        apply IH in H3. discriminate.
      * split; [| reflexivity]. intros _. constructor; [exact Hp |].
        apply IH. reflexivity.
Qed.

Lemma find_ref_Some p l i o :
  find_ref p l = Some (i, o) ->
  l !! i = Some o /\ p o = true /\ Forall (fun o' => p o' = false) (take i l).
Proof.
  revert i. induction l as [| x l IH]; intros i; cbn [find_ref]; [discriminate |].
  destruct (p x) eqn:Hp.
  - intros [= <- <-]. repeat split; [exact Hp | constructor].
  - destruct (find_ref p l) as [[j found] |]; [| discriminate].
    intros [= <- <-]. destruct (IH j eq_refl) as (Hl & Hf & Ht).
    repeat split; [exact Hl | exact Hf |]. cbn [take]. constructor; assumption.
Qed.

Lemma strict_eq_JStr v s : strict_eq v (JStr s) = true <-> v = JStr s.
Proof.
  destruct v as [| | b | z | | s']; cbn; try (split; discriminate).
  rewrite String.eqb_eq. split; congruence.
Qed.

Lemma try_send_run rt label mail st :
  try_catch (transporter_sendMail rt mail)
            (fun error => console_error label (message error)) st
  = (Normal tt, after_mail rt label mail st).
Proof.
  unfold try_catch, transporter_sendMail, after_mail, mail_errors, console_error.
  destruct (sendMail rt (length (mail_attempts st)) mail) as [[] | e]; cbn.
  - rewrite app_nil_r. reflexivity.
  - reflexivity.
Qed.

Lemma sendOrderConfirmation_run rt order st :
  sendOrderConfirmation rt order st
  = match member_name (get PRODUCTS (Order.tier order)) with
    | Normal productName =>
        (Normal tt, after_mail rt "Email error:" (confirmation_mail order productName) st)
    | Throw e => (Throw e, st)
    end.
Proof.
  unfold sendOrderConfirmation, bind, lift.
  destruct (member_name _); [apply try_send_run | reflexivity].
Qed.

Lemma sendInternalNotification_run rt order st :
  sendInternalNotification rt order st
  = match member_name (get PRODUCTS (Order.tier order)) with
    | Normal productName =>
        (Normal tt,
         after_mail rt "Internal email error:" (internal_mail rt order productName) st)
    | Throw e => (Throw e, st)
    end.
Proof.
  unfold sendInternalNotification, bind, lift.
  destruct (member_name _); [apply try_send_run | reflexivity].
Qed.

(** What a verified checkout.session.completed event does: the order is
    pushed and written before the first mail is composed. *)
Lemma webhook_completed_run rt payload sig st event :
  constructEvent rt payload sig (STRIPE_WEBHOOK_SECRET rt) = Normal event ->
  Event.type event = "checkout.session.completed" ->
  let order := delivered_order rt (Event.data_object event) st in
  let st1 := stored st (with_order (data st) order) 2 in
  webhook rt payload sig st
  = match member_name (get PRODUCTS (Order.tier order)) with
    | Normal productName =>
        (Responded (json ReceivedJson),
         after_mail rt "Internal email error:" (internal_mail rt order productName)
           (after_mail rt "Email error:" (confirmation_mail order productName) st1))
    | Throw e => (Unhandled e, st1)
    end.
Proof.
  intros Hverify Htype order st1. unfold webhook, run.
  rewrite Hverify, Htype, String.eqb_refl.
  unfold bind, now, push_order, db_write, ret.
  rewrite sendOrderConfirmation_run. cbn [data clock_reads set_data].
  change (order_of_session _ _ _) with order.
  destruct (member_name (get PRODUCTS (Order.tier order))) as [name | e] eqn:Hname.
  - rewrite sendInternalNotification_run, Hname. reflexivity.
  - reflexivity.
Qed.

(** What a verified event of another type does: nothing. *)
Lemma webhook_other_run rt payload sig st event :
  constructEvent rt payload sig (STRIPE_WEBHOOK_SECRET rt) = Normal event ->
  Event.type event <> "checkout.session.completed" ->
  webhook rt payload sig st = (Responded (json ReceivedJson), st).
Proof.
  intros Hverify Htype. unfold webhook, run. rewrite Hverify.
  apply String.eqb_neq in Htype. rewrite Htype. destruct st; reflexivity.
Qed.

Lemma webhook_unverified_run rt payload sig st err :
  constructEvent rt payload sig (STRIPE_WEBHOOK_SECRET rt) = Throw err ->
  webhook rt payload sig st
  = (Responded (status_json 400 (Text ("Webhook Error: " ++ message err))),
     logged st "Webhook error:" (message err)).
Proof. intros Hverify. unfold webhook, run. rewrite Hverify. reflexivity. Qed.

(** What the PATCH handler does to an order it finds. *)
Lemma update_status_found rt orderId status st i order :
  find_ref (has_id orderId) (orders (data st)) = Some (i, order) ->
  let order' := Order.set_status order status (toISOString_now rt (clock_reads st)) in
  let st1 := stored st (with_order_at (data st) i order') 1 in
  update_status rt orderId status st
  = match method_toUpperCase rt status with
    | Normal statusUpper =>
        (Responded (json (OrderJson order')),
         after_mail rt "Status email error:"
           (StatusUpdate (Order.customerEmail order) (substring 0 8 orderId)
              (Order.customerName order) statusUpper
              (get statusMessages status) (JStr orderId)) st1)
    | Throw e =>
        (Responded (status_json 500 (ErrorJson "Failed to update order")),
         logged st1 "Order update error:" (message e))
    end.
Proof.
  intros Hfind order' st1.
  destruct (find_ref_Some _ _ _ _ Hfind) as (_ & Hid & _).
  apply strict_eq_JStr in Hid.
  unfold update_status, run, try_catch. rewrite Hfind.
  unfold bind, now, assign_status, db_write, ret.
  unfold sendStatusUpdate, bind, lift. cbn [Order.id Order.set_status Order.status].
  rewrite Hid. cbn [method_substring].
  destruct (method_toUpperCase rt status) as [upper | e].
  - rewrite try_send_run. cbn [Order.customerEmail Order.customerName]. reflexivity.
  - reflexivity.
Qed.

Lemma update_status_not_found rt orderId status st :
  find_ref (has_id orderId) (orders (data st)) = None ->
  update_status rt orderId status st
  = (Responded (status_json 404 (ErrorJson "Order not found")), st).
Proof.
  intros Hfind. unfold update_status, run, try_catch. rewrite Hfind. reflexivity.
Qed.

(** *** Checkout *)

Lemma create_checkout_rejected rt b st rejection :
  validate b = Some rejection ->
  create_checkout rt b st = (Responded rejection, st).
Proof.
  intros Hv. unfold create_checkout, run, try_catch. rewrite Hv. reflexivity.
Qed.

(** What passing the validation of lines 130-141 amounts to. *)
Lemma validate_None b :
  validate b = None <->
  truthy (CheckoutBody.vibe b) = true /\ truthy (CheckoutBody.tier b) = true
  /\ truthy (CheckoutBody.quantity b) = true
  /\ truthy (CheckoutBody.uploadId b) = true
  /\ truthy (CheckoutBody.customerName b) = true
  /\ truthy (CheckoutBody.customerEmail b) = true
  /\ slot_truthy (get PRODUCTS (CheckoutBody.tier b)) = true
  /\ slot_truthy (get VIBES (CheckoutBody.vibe b)) = true.
Proof.
  unfold validate.
  destruct (truthy (CheckoutBody.vibe b)), (truthy (CheckoutBody.tier b)),
    (truthy (CheckoutBody.quantity b)), (truthy (CheckoutBody.uploadId b)),
    (truthy (CheckoutBody.customerName b)), (truthy (CheckoutBody.customerEmail b));
    cbn [negb orb]; try (split; [discriminate | intuition discriminate]).
  destruct (slot_truthy (get PRODUCTS (CheckoutBody.tier b)));
    cbn [negb]; [| split; [discriminate | intuition discriminate]].
  destruct (slot_truthy (get VIBES (CheckoutBody.vibe b)));
    cbn [negb]; [| split; [discriminate | intuition discriminate]].
  split; [intros _; repeat split | reflexivity].
Qed.

Lemma method_toString_truthy v :
  truthy v = true -> method_toString v = Normal (ToString v).
Proof. destruct v; cbn; intros H; try discriminate; reflexivity. Qed.

(** The request a validated body is turned into. *)
Lemma checkout_params_run rt b st :
  validate b = None ->
  exists params,
    checkout_params rt b st = (Normal params, drawn st)
    /\ member_price (get PRODUCTS (CheckoutBody.tier b))
       = Normal (Params.unit_amount params)
    /\ Params.quantity params = CheckoutBody.quantity b
    /\ Params.customer_email params = CheckoutBody.customerEmail b
    /\ Params.metadata params
       = checkout_metadata (uuidv4 rt (uuids_drawn st))
                           (ToString (CheckoutBody.quantity b)) b.
Proof.
  intros Hv. apply validate_None in Hv.
  destruct Hv as (_ & _ & Hq & _ & _ & _ & Hproduct & _).
  unfold checkout_params, bind, lift, fresh_uuid, ret.
  rewrite (method_toString_truthy _ Hq).
  destruct (get PRODUCTS (CheckoutBody.tier b)) as [p | key |];
    [| | discriminate]; cbn [member_price member_name];
    eexists; (split; [reflexivity |]); repeat split.
Qed.

Lemma create_checkout_accepted rt b st params :
  validate b = None ->
  checkout_params rt b st = (Normal params, drawn st) ->
  create_checkout rt b st
  = match sessions_create rt (length (stripe_requests st)) params with
    | Normal session =>
        (Responded (json (SessionJson (Created.id session) (Created.url session))),
         requested st params)
    | Throw e =>
        (Responded (status_json 500 (ErrorJson "Failed to create checkout session")),
         logged (requested st params) "Checkout error:" (message e))
    end.
Proof.
  intros Hv Hparams. unfold create_checkout, run, try_catch. rewrite Hv.
  unfold bind at 1. rewrite Hparams. unfold bind, stripe_create, ret.
  cbn [stripe_requests drawn].
  destruct (sessions_create rt (length (stripe_requests st)) params); reflexivity.
Qed.

(** ** The webhook *)

(** C2. A payload whose signature does not verify is answered with status
    400 and the verification error, and nothing but the console changes: no
    order is pushed, db.json is not written, no mail is sent and Stripe is
    not called, whatever the payload holds. *)
Theorem webhook_rejects_unverified rt payload sig st err :
  constructEvent rt payload sig (STRIPE_WEBHOOK_SECRET rt) = Throw err ->
  let st' := snd (webhook rt payload sig st) in
  fst (webhook rt payload sig st)
  = Responded (status_json 400 (Text ("Webhook Error: " ++ message err)))
  /\ data st' = data st
  /\ file st' = file st
  /\ mail_attempts st' = mail_attempts st
  /\ stripe_requests st' = stripe_requests st
  /\ uuids_drawn st' = uuids_drawn st
  /\ clock_reads st' = clock_reads st
  /\ console st' = (console st ++ [("Webhook error:", message err)])%list.
Proof.
  intros Hverify st'. subst st'.
  rewrite (webhook_unverified_run _ _ _ _ _ Hverify). repeat split.
Qed.

Lemma webhook_rejects_unverified_witness :
  fst (webhook Demo.runtime "completed" (JStr "t=1,v1=forged") Demo.after_one_delivery)
  = Responded (status_json 400 (Text
      "Webhook Error: No signatures found matching the expected signature for payload."))
  /\ data (snd (webhook Demo.runtime "completed" (JStr "t=1,v1=forged")
                        Demo.after_one_delivery))
     = data Demo.after_one_delivery.
Proof.
  destruct (webhook_rejects_unverified Demo.runtime "completed"
              (JStr "t=1,v1=forged") Demo.after_one_delivery
              (StripeError "No signatures found matching the expected signature for payload.")
              eq_refl) as (Hrun & Hdata & _).
  split; [exact Hrun | exact Hdata].
Defined.

(** C9. A verified event of any type other than
    checkout.session.completed is acknowledged with [{ received: true }]
    and leaves the whole state as it was, so that an order is pushed only
    by an event of that one type. *)
Theorem webhook_ignores_other_types rt payload sig st event :
  constructEvent rt payload sig (STRIPE_WEBHOOK_SECRET rt) = Normal event ->
  Event.type event <> "checkout.session.completed" ->
  webhook rt payload sig st = (Responded (json ReceivedJson), st).
Proof. apply webhook_other_run. Qed.

Lemma webhook_ignores_other_types_witness :
  webhook Demo.runtime "payment_intent" (JStr "t=1,v1=good") Demo.after_one_delivery
  = (Responded (json ReceivedJson), Demo.after_one_delivery).
Proof.
  apply (webhook_ignores_other_types Demo.runtime "payment_intent"
           (JStr "t=1,v1=good") Demo.after_one_delivery Demo.other_event).
  - reflexivity.
  - discriminate.
Defined.

(** What a delivery adds to the orders of its session. *)
Lemma orders_of_session_push sessionId order st st' :
  orders (data st') = (orders (data st) ++ [order])%list ->
  Order.stripeSessionId order = JStr sessionId ->
  length (orders_of_session (JStr sessionId) st')
  = S (length (orders_of_session (JStr sessionId) st)).
Proof.
  intros Hpush Hid. unfold orders_of_session. rewrite Hpush, List.filter_app.
  cbn [List.filter]. rewrite Hid. cbn [strict_eq]. rewrite String.eqb_refl.
  rewrite length_app. cbn [length]. lia.
Qed.

Lemma webhook_completed_orders rt payload sig st event :
  constructEvent rt payload sig (STRIPE_WEBHOOK_SECRET rt) = Normal event ->
  Event.type event = "checkout.session.completed" ->
  orders (data (snd (webhook rt payload sig st)))
  = (orders (data st) ++ [delivered_order rt (Event.data_object event) st])%list.
Proof.
  intros Hverify Htype. rewrite (webhook_completed_run _ _ _ _ _ Hverify Htype).
  destruct (member_name _); reflexivity.
Qed.

(** C1 (counterexample). The store holds one order of session
    cs_test_a1B2c3; the identical signed event delivered again is
    acknowledged, and the store then holds two orders of that session and
    the transport has been handed a second customer confirmation. *)
Lemma redelivery_pushes_second_order :
  let once := Demo.after_one_delivery in
  let again := webhook Demo.runtime "completed" (JStr "t=1,v1=good") once in
  length (orders_of_session (JStr "cs_test_a1B2c3") once) = 1%nat
  /\ length (confirmations once) = 1%nat
  /\ fst again = Responded (json ReceivedJson)
  /\ length (orders_of_session (JStr "cs_test_a1B2c3") (snd again)) = 2%nat
  /\ length (confirmations (snd again)) = 2%nat.
Proof. vm_compute. repeat split. Qed.

(** C1 (amended). The handler does not look the session up: every
    delivery of a verified checkout.session.completed event pushes exactly
    one order built from the event, whatever the store already holds, and
    when the event's tier is served by PRODUCTS it hands the confirmation
    and the internal mail to the transport again.  After [n] deliveries of
    the same payload the store holds [n] more orders of that session. *)
Theorem webhook_pushes_on_every_delivery rt payload sig event :
  constructEvent rt payload sig (STRIPE_WEBHOOK_SECRET rt) = Normal event ->
  Event.type event = "checkout.session.completed" ->
  let session := Event.data_object event in
  (forall st,
     let order := delivered_order rt session st in
     let st' := snd (webhook rt payload sig st) in
     orders (data st') = (orders (data st) ++ [order])%list
     /\ Order.stripeSessionId order = JStr (Session.id session)
     /\ forall productName,
          member_name (get PRODUCTS (Order.tier order)) = Normal productName ->
          fst (webhook rt payload sig st) = Responded (json ReceivedJson)
          /\ mail_attempts st'
             = (mail_attempts st ++ [confirmation_mail order productName;
                                     internal_mail rt order productName])%list)
  /\ forall n st,
       length (orders_of_session (JStr (Session.id session))
                                 (deliveries rt payload sig n st))
       = (n + length (orders_of_session (JStr (Session.id session)) st))%nat.
Proof.
  intros Hverify Htype session. split.
  - intros st order st'. split; [| split].
    + apply (webhook_completed_orders _ _ _ _ _ Hverify Htype).
    + reflexivity.
    + intros productName Hname. subst st'.
      rewrite (webhook_completed_run _ _ _ _ _ Hverify Htype).
      fold session. fold order. rewrite Hname. split; [reflexivity |].
      cbn [snd after_mail mail_attempts stored]. rewrite <- app_assoc. reflexivity.
  - induction n as [| n IH]; intros st; cbn [deliveries]; [reflexivity |].
    rewrite IH.
    rewrite (orders_of_session_push (Session.id session)
               (delivered_order rt session st) st).
    + lia.
    + apply (webhook_completed_orders _ _ _ _ _ Hverify Htype).
    + reflexivity.
Qed.

Lemma webhook_pushes_on_every_delivery_witness :
  length (orders_of_session (JStr "cs_test_a1B2c3")
            (deliveries Demo.runtime "completed" (JStr "t=1,v1=good") 3 initial))
  = 3%nat.
Proof.
  destruct (webhook_pushes_on_every_delivery Demo.runtime "completed"
              (JStr "t=1,v1=good") Demo.completed_event eq_refl eq_refl)
    as [_ Hcount].
  exact (Hcount 3%nat initial).
Defined.

(** ** Checkout and the way back through the webhook *)

(** The metadata object read back property by property. *)
Lemma checkout_metadata_read orderId quantity_string b :
  let m := checkout_metadata orderId quantity_string b in
  meta m "orderId" = JStr orderId
  /\ meta m "vibe" = CheckoutBody.vibe b
  /\ meta m "tier" = CheckoutBody.tier b
  /\ meta m "quantity" = JStr quantity_string
  /\ meta m "uploadId" = CheckoutBody.uploadId b
  /\ meta m "customerName" = CheckoutBody.customerName b
  /\ meta m "customerPhone" = js_or (CheckoutBody.customerPhone b) (JStr "")
  /\ meta m "shippingAddress" = js_or (CheckoutBody.shippingAddress b) (JStr "")
  /\ meta m "notes" = js_or (CheckoutBody.notes b) (JStr "").
Proof.
  unfold meta, checkout_metadata. repeat split; by simplify_map_eq.
Qed.

Lemma catalog_key_get {A : Type} (table : list (string * A)) code :
  catalog_key table code -> exists a, get table (JStr code) = Own a.
Proof.
  intros [a Ha]. exists a. unfold get. cbn [ToString]. rewrite Ha. reflexivity.
Qed.

Lemma truthy_nonempty s : s <> "" -> truthy (JStr s) = true.
Proof.
  intros Hs. cbn [truthy]. apply String.eqb_neq in Hs. rewrite Hs. reflexivity.
Qed.

(** A valid intent passes the validation of the handler. *)
Lemma valid_intent_validate b : valid_intent b -> validate b = None.
Proof.
  intros [(v & Hv & Hvk) (t & Ht & Htk) (q & Hq & Hqpos) (u & Hu & Hune)
          (n & Hn & Hnne) (e & He & Hene) _ _ _].
  apply validate_None. rewrite Hv, Ht, Hq, Hu, Hn, He.
  destruct (catalog_key_get _ _ Hvk) as [vibeName ->].
  destruct (catalog_key_get _ _ Htk) as [product ->].
  assert (v <> "") by (intros ->; destruct Hvk; discriminate).
  assert (t <> "") by (intros ->; destruct Htk; discriminate).
  repeat split; try (apply truthy_nonempty; assumption).
  cbn [truthy]. destruct (Z.eqb_spec q 0); [lia | reflexivity].
Qed.

(** [v || ''] keeps a text and replaces an absent value by the empty
    one. *)
Lemma or_empty_optional v :
  optional_text v ->
  js_or v (JStr "") = or_empty v.
Proof.
  intros [-> | [s ->]]; [reflexivity |]. unfold js_or. cbn [truthy].
  destruct (String.eqb_spec s ""); [subst; reflexivity | reflexivity].
Qed.

Lemma demo_body_valid : valid_intent Demo.checkout_body.
Proof.
  constructor; cbn.
  - exists "elf". split; [reflexivity | eexists; reflexivity].
  - exists "print". split; [reflexivity | eexists; reflexivity].
  - exists 2. split; [reflexivity | unfold MAX_SAFE_INTEGER; lia].
  - eexists. split; [reflexivity | discriminate].
  - eexists. split; [reflexivity | discriminate].
  - eexists. split; [reflexivity | discriminate].
  - left. reflexivity.
  - right. eexists. reflexivity.
  - left. reflexivity.
Qed.

(** C3 (counterexample). For the valid intent [Demo.checkout_body], which
    leaves the phone number out, the order rebuilt from any event that
    carries the session metadata back has the empty string as its phone
    number, not the absent value of the intent. *)
Lemma roundtrip_turns_absent_phone_into_empty :
  valid_intent Demo.checkout_body
  /\ CheckoutBody.customerPhone Demo.checkout_body = JUndefined
  /\ exists params,
       fst (checkout_params Demo.runtime Demo.checkout_body initial) = Normal params
       /\ forall session created updated,
            echoes session params ->
            Order.customerPhone (order_of_session session created updated) = JStr ""
            /\ Order.customerPhone (order_of_session session created updated)
               <> CheckoutBody.customerPhone Demo.checkout_body.
Proof.
  split; [exact demo_body_valid | split; [reflexivity |]].
  eexists. split; [reflexivity |].
  intros session created updated [Hmeta _ _].
  cbn [order_of_session Order.customerPhone]. rewrite Hmeta.
  split; [reflexivity | discriminate].
Qed.

Lemma create_checkout_requests rt b st params :
  validate b = None ->
  checkout_params rt b st = (Normal params, drawn st) ->
  stripe_requests (snd (create_checkout rt b st))
  = (stripe_requests st ++ [params])%list
  /\ data (snd (create_checkout rt b st)) = data st.
Proof.
  intros Hv Hparams. rewrite (create_checkout_accepted _ _ _ _ Hv Hparams).
  destruct (sessions_create rt _ params); split; reflexivity.
Qed.

(** C3 (amended). For every valid intent the handler sends Stripe a
    request such that the order built from any event that carries the
    request's metadata and customer email back has the theme, tier,
    quantity, upload id, customer name and customer email of the intent,
    and a phone number, address and notes that are those of the intent when
    it gives them and the empty string when it leaves them out. *)
Theorem checkout_roundtrip rt b st :
  valid_intent b ->
  exists params,
    checkout_params rt b st = (Normal params, drawn st)
    /\ stripe_requests (snd (create_checkout rt b st))
       = (stripe_requests st ++ [params])%list
    /\ forall session created updated,
         echoes session params ->
         let order := order_of_session session created updated in
         Order.id order = JStr (uuidv4 rt (uuids_drawn st))
         /\ Order.vibe order = CheckoutBody.vibe b
         /\ Order.tier order = CheckoutBody.tier b
         /\ Order.quantity order = CheckoutBody.quantity b
         /\ Order.uploadId order = CheckoutBody.uploadId b
         /\ Order.customerName order = CheckoutBody.customerName b
         /\ Order.customerEmail order = CheckoutBody.customerEmail b
         /\ Order.customerPhone order
= or_empty (CheckoutBody.customerPhone b)
         /\ Order.shippingAddress order
= or_empty (CheckoutBody.shippingAddress b)
         /\ Order.notes order
= or_empty (CheckoutBody.notes b).
Proof.
  intros Hvalid. pose proof (valid_intent_validate b Hvalid) as Hv.
  destruct (checkout_params_run rt b st Hv) as (params & Hrun & _ & _ & Hemail & Hmeta).
  exists params. split; [exact Hrun |].
  split; [apply (create_checkout_requests _ _ _ _ Hv Hrun) |].
  intros session created updated [Hm He _] order. subst order.
  cbn [order_of_session Order.id Order.vibe Order.tier Order.quantity
       Order.uploadId Order.customerName Order.customerEmail
       Order.customerPhone Order.shippingAddress Order.notes].
  rewrite Hm, He, Hmeta, Hemail.
  destruct (checkout_metadata_read (uuidv4 rt (uuids_drawn st))
              (ToString (CheckoutBody.quantity b)) b)
    as (-> & -> & -> & -> & -> & -> & -> & -> & ->).
  destruct Hvalid as [_ _ (q & Hq & _) _ _ _ Hphone Haddress Hnotes].
  rewrite (or_empty_optional _ Hphone), (or_empty_optional _ Haddress),
    (or_empty_optional _ Hnotes).
  repeat split. rewrite Hq. unfold parseInt. cbn [ToString].
  apply parseInt_Z_toString.
Qed.

Lemma checkout_roundtrip_witness :
  valid_intent Demo.checkout_body
  /\ exists params,
       checkout_params Demo.runtime Demo.checkout_body initial
       = (Normal params, drawn initial)
       /\ forall session created updated,
            echoes session params ->
            Order.quantity (order_of_session session created updated) = JNum 2
            /\ Order.tier (order_of_session session created updated) = JStr "print"
            /\ Order.customerEmail (order_of_session session created updated)
               = JStr "kevin@example.com"
            /\ Order.notes (order_of_session session created updated) = JStr "".
Proof.
  split; [exact demo_body_valid |].
  destruct (checkout_roundtrip Demo.runtime Demo.checkout_body initial
              demo_body_valid) as (params & Hrun & _ & Hback).
  exists params. split; [exact Hrun |].
  intros session created updated Hecho.
  destruct (Hback session created updated Hecho)
    as (_ & _ & Htier & Hq & _ & _ & Hemail & _ & _ & Hnotes).
  repeat split; assumption.
Defined.

(** C5. For a valid checkout of [q] items of a tier priced [price], the
    handler sends Stripe one request whose line item has the unit amount
    [price] and the quantity [q], so that its total, and what line 144
    computes, is [price * q] (an integer of minor currency units, exact as
    long as it is a safe integer).  When the completed-session event that
    answers this request is then delivered to the webhook, in whatever state
    the server is by then, the event is acknowledged and exactly one order is
    appended to the store, in memory and in db.json: it carries [price * q]
    as its amount, pending as its status, the order id drawn at the
    checkout, and the tier and quantity of the checkout. *)
Theorem checkout_amount rt b st code product q :
  valid_intent b ->
  CheckoutBody.tier b = JStr code ->
  assoc code PRODUCTS = Some product ->
  CheckoutBody.quantity b = JNum q ->
  Product.price product * q <= MAX_SAFE_INTEGER ->
  exists params,
    stripe_requests (snd (create_checkout rt b st))
    = (stripe_requests st ++ [params])%list
    /\ Params.unit_amount params = JNum (Product.price product)
    /\ Params.quantity params = JNum q
    /\ Params.customer_email params = CheckoutBody.customerEmail b
    /\ Params.metadata params
       = checkout_metadata (uuidv4 rt (uuids_drawn st)) (Z_toString q) b
    /\ line_total params = JNum (Product.price product * q)
    /\ totalAmount rt (Params.unit_amount params) (Params.quantity params)
       = line_total params
    /\ forall payload sig event later,
         constructEvent rt payload sig (STRIPE_WEBHOOK_SECRET rt) = Normal event ->
         Event.type event = "checkout.session.completed" ->
         echoes (Event.data_object event) params ->
         exists order,
           fst (webhook rt payload sig later) = Responded (json ReceivedJson)
           /\ orders (data (snd (webhook rt payload sig later)))
              = (orders (data later) ++ [order])%list
           /\ orders (file (snd (webhook rt payload sig later)))
              = (orders (data later) ++ [order])%list
           /\ Order.amount order = JNum (Product.price product * q)
           /\ Order.status order = JStr "pending"
           /\ Order.id order = JStr (uuidv4 rt (uuids_drawn st))
           /\ Order.stripeSessionId order = JStr (Session.id (Event.data_object event))
           /\ Order.tier order = JStr code
           /\ Order.quantity order = JNum q.
Proof.
  intros Hvalid Htier Hproduct Hq _.
  pose proof (valid_intent_validate b Hvalid) as Hv.
  assert (Hprice : member_price (get PRODUCTS (CheckoutBody.tier b))
                   = Normal (JNum (Product.price product))).
  { rewrite Htier. unfold get. cbn [ToString]. rewrite Hproduct. reflexivity. }
  destruct (checkout_params_run rt b st Hv)
    as (params & Hrun & Hunit & Hquantity & Hemail & Hmeta).
  rewrite Hprice in Hunit. injection Hunit as Hunit. rewrite Hq in Hquantity, Hmeta.
  cbn [ToString] in Hmeta.
  assert (Htotal : line_total params = JNum (Product.price product * q)).
  { unfold line_total. rewrite <- Hunit, Hquantity. reflexivity. }
  exists params.
  split; [apply (create_checkout_requests _ _ _ _ Hv Hrun) |].
  split; [congruence |]. split; [exact Hquantity |]. split; [exact Hemail |].
  split; [exact Hmeta |]. split; [exact Htotal |].
  split; [rewrite Htotal, <- Hunit, Hquantity; reflexivity |].
  intros payload sig event later Hverify Htype [Hecho_meta _ Hecho_total].
  exists (delivered_order rt (Event.data_object event) later).
  rewrite (webhook_completed_run _ _ _ _ _ Hverify Htype).
  assert (Hread : Order.tier (delivered_order rt (Event.data_object event) later)
                  = JStr code).
  { cbn [delivered_order order_of_session Order.tier].
    rewrite Hecho_meta, Hmeta, <- Htier.
    apply (checkout_metadata_read (uuidv4 rt (uuids_drawn st)) (Z_toString q) b). }
  rewrite Hread. unfold get. cbn [ToString]. rewrite Hproduct. cbn [member_name].
  split; [reflexivity |]. split; [reflexivity |]. split; [reflexivity |].
  cbn [delivered_order order_of_session Order.amount Order.status Order.id
       Order.stripeSessionId Order.tier Order.quantity].
  rewrite Hecho_total, Hecho_meta, Hmeta.
  destruct (checkout_metadata_read (uuidv4 rt (uuids_drawn st)) (Z_toString q) b)
    as (-> & _ & _ & -> & _).
  repeat split; try assumption.
  unfold parseInt. cbn [ToString]. apply parseInt_Z_toString.
Qed.

(** Two fine-art prints on a fresh server: the request carries 18900 and
    2, and once the event that answers it is delivered the store holds one
    order, of 37800 and pending. *)
Lemma checkout_amount_witness :
  let asked := snd (create_checkout DemoRoutes.runtime Demo.checkout_body initial) in
  let paid := webhook DemoRoutes.runtime "echo" (JStr "t=1,v1=good") asked in
  exists params order,
    stripe_requests asked = [params]
    /\ line_total params = JNum 37800
    /\ fst paid = Responded (json ReceivedJson)
    /\ orders (data (snd paid)) = [order]
    /\ orders (file (snd paid)) = [order]
    /\ Order.amount order = JNum 37800
    /\ Order.status order = JStr "pending".
Proof.
  intros asked paid.
  destruct (checkout_amount DemoRoutes.runtime Demo.checkout_body initial "print"
              {| Product.price := 18900; Product.name := "Fine-Art Print";
                 Product.shippingRequired := true |} 2
              demo_body_valid eq_refl eq_refl eq_refl)
    as (params & Hsent & Hunit & Hquantity & Hemail & Hmeta & Htotal & _ & Hdelivered).
  - unfold MAX_SAFE_INTEGER. cbn. lia.
  - destruct (Hdelivered "echo" (JStr "t=1,v1=good") DemoRoutes.echo_event asked
                eq_refl eq_refl)
      as (order & Hack & Hdata & Hfile & Hamount & Hstatus & _).
    + constructor.
      * rewrite Hmeta. reflexivity.
      * rewrite Hemail. reflexivity.
      * rewrite Htotal. reflexivity.
    + exists params, order. subst asked paid.
      assert (Hempty : orders (data (snd (create_checkout DemoRoutes.runtime
                                            Demo.checkout_body initial))) = [])
        by (vm_compute; reflexivity).
      rewrite Hempty in Hdata, Hfile.
      repeat split; assumption.
Defined.

(** ** The catalog and the validation of a checkout *)

Lemma get_Missing {A : Type} (table : list (string * A)) v :
  get table v = Missing <-> unknown_code table v.
Proof.
  unfold get, unknown_code, catalog_key.
  destruct (assoc (ToString v) table) as [a |].
  - split; [discriminate |]. intros [H _]. exfalso. apply H. eexists. reflexivity.
  - unfold is_inherited.
    destruct (existsb (String.eqb (ToString v)) ObjectPrototype_keys) eqn:Hin.
    + split; [discriminate |]. intros [_ H]. exfalso. apply H.
      apply existsb_exists in Hin. destruct Hin as (k & Hk & Heq).
      apply String.eqb_eq in Heq. congruence.
    + split; [| reflexivity]. intros _. split.
      * intros [a Ha]. discriminate.
      * intros H. apply not_true_iff_false in Hin. apply Hin.
        apply existsb_exists. exists (ToString v). split; [exact H |].
        apply String.eqb_refl.
Qed.

(** The three tiers and the three themes are found, with their prices,
    shipping requirements and display names. *)
Lemma catalog_lookups :
  get PRODUCTS (JStr "digital")
  = Own {| Product.price := 7900; Product.name := "Digital Only";
           Product.shippingRequired := false |}
  /\ get PRODUCTS (JStr "print")
     = Own {| Product.price := 18900; Product.name := "Fine-Art Print";
              Product.shippingRequired := true |}
  /\ get PRODUCTS (JStr "framed")
     = Own {| Product.price := 39900; Product.name := "Framed Edition";
              Product.shippingRequired := true |}
  /\ get VIBES (JStr "homeAlone") = Own "Home Alone"
  /\ get VIBES (JStr "elf") = Own "Elf"
  /\ get VIBES (JStr "vacation") = Own "Christmas Vacation".
Proof. repeat split. Qed.

(** C6 (the code at the failing input). The tier code "constructor" is
    not a key of PRODUCTS, yet [PRODUCTS["constructor"]] is the inherited
    Object function and so truthy: the request passes the validation, the
    handler sends Stripe a request with an undefined unit amount for a
    product named Object, and answers 500 rather than 400 Invalid tier
    when Stripe refuses it. *)
Theorem inherited_name_accepted_as_tier :
  let b := Demo.with_tier Demo.checkout_body (JStr "constructor") in
  ~ catalog_key PRODUCTS "constructor"
  /\ get PRODUCTS (JStr "constructor") = Inherited "constructor"
  /\ validate b = None
  /\ exists params,
       stripe_requests (snd (create_checkout Demo.runtime b initial)) = [params]
       /\ Params.unit_amount params = JUndefined
       /\ Params.label_product params = JStr "Object"
       /\ fst (create_checkout Demo.runtime b initial)
          = Responded (status_json 500 (ErrorJson "Failed to create checkout session")).
Proof.
  split; [intros [p Hp]; discriminate |].
  split; [reflexivity |]. split; [reflexivity |].
  eexists. split; [vm_compute; reflexivity |]. repeat split.
Qed.

(** C7 (counterexample). With quantity -1 and every other field valid the
    request passes the validation: the handler asks Stripe to open a
    session, and answers with Stripe's refusal as a 500, not with a
    validation error. *)
Lemma negative_quantity_sent_to_stripe :
  let b := Demo.with_quantity Demo.checkout_body (JNum (-1)) in
  validate b = None
  /\ (exists params,
        stripe_requests (snd (create_checkout Demo.runtime b initial)) = [params]
        /\ Params.quantity params = JNum (-1))
  /\ fst (create_checkout Demo.runtime b initial)
     = Responded (status_json 500 (ErrorJson "Failed to create checkout session")).
Proof.
  split; [reflexivity |]. split; [| reflexivity].
  eexists. split; [vm_compute; reflexivity | reflexivity].
Qed.

Lemma missing_required_validate b :
  missing_required b ->
  validate b = Some (status_json 400 (ErrorJson "Missing required fields")).
Proof.
  unfold missing_required, validate.
  intros [-> | [-> | [-> | [-> | [-> | ->]]]]]; cbn [negb orb];
    rewrite ?orb_true_r; reflexivity.
Qed.

Lemma not_missing_required b :
  ~ missing_required b ->
  negb (truthy (CheckoutBody.vibe b)) || negb (truthy (CheckoutBody.tier b))
  || negb (truthy (CheckoutBody.quantity b))
  || negb (truthy (CheckoutBody.uploadId b))
  || negb (truthy (CheckoutBody.customerName b))
  || negb (truthy (CheckoutBody.customerEmail b)) = false.
Proof.
  unfold missing_required. intros H.
  destruct (truthy (CheckoutBody.vibe b)), (truthy (CheckoutBody.tier b)),
    (truthy (CheckoutBody.quantity b)), (truthy (CheckoutBody.uploadId b)),
    (truthy (CheckoutBody.customerName b)), (truthy (CheckoutBody.customerEmail b));
    try reflexivity; exfalso; apply H; tauto.
Qed.

(** C7 (amended). A request with a required field absent or falsy is
    answered 400 Missing required fields; otherwise one whose tier names
    nothing in PRODUCTS is answered 400 Invalid tier; otherwise one whose
    theme names nothing in VIBES, while its tier is found, is answered 400
    Invalid vibe.  In each case the state is left as it was: nothing is sent
    to Stripe.  The quantity is checked for presence only. *)
Theorem checkout_validation rt b st :
  missing_required b
  \/ unknown_code PRODUCTS (CheckoutBody.tier b)
  \/ unknown_code VIBES (CheckoutBody.vibe b) ->
  exists reason,
    create_checkout rt b st = (Responded (status_json 400 (ErrorJson reason)), st)
    /\ (missing_required b /\ reason = "Missing required fields"
        \/ ~ missing_required b /\ unknown_code PRODUCTS (CheckoutBody.tier b)
           /\ reason = "Invalid tier"
        \/ ~ missing_required b /\ ~ unknown_code PRODUCTS (CheckoutBody.tier b)
           /\ unknown_code VIBES (CheckoutBody.vibe b) /\ reason = "Invalid vibe").
Proof.
  intros Hbad.
  assert (Hdec : missing_required b \/ ~ missing_required b).
  { unfold missing_required.
    destruct (truthy (CheckoutBody.vibe b)), (truthy (CheckoutBody.tier b)),
      (truthy (CheckoutBody.quantity b)), (truthy (CheckoutBody.uploadId b)),
      (truthy (CheckoutBody.customerName b)), (truthy (CheckoutBody.customerEmail b));
      try (left; tauto).
    right. intros H. repeat (destruct H as [H | H]; [discriminate |]).
    discriminate. }
  destruct Hdec as [Hmissing | Hpresent].
  - exists "Missing required fields". split; [| left; split; [assumption | reflexivity]].
    apply create_checkout_rejected, missing_required_validate, Hmissing.
  - destruct Hbad as [Hmissing | Hbad]; [contradiction |].
    pose proof (not_missing_required b Hpresent) as Hfields.
    destruct (get PRODUCTS (CheckoutBody.tier b)) as [p | key |] eqn:Htier.
    + assert (Hknown : ~ unknown_code PRODUCTS (CheckoutBody.tier b)).
      { intros H. apply get_Missing in H. congruence. }
      destruct Hbad as [Htier' | Hvibe]; [contradiction |].
      exists "Invalid vibe". split; [| right; right; auto].
      apply create_checkout_rejected. unfold validate.
      rewrite Hfields, Htier. apply get_Missing in Hvibe. rewrite Hvibe. reflexivity.
    + assert (Hknown : ~ unknown_code PRODUCTS (CheckoutBody.tier b)).
      { intros H. apply get_Missing in H. congruence. }
      destruct Hbad as [Htier' | Hvibe]; [contradiction |].
      exists "Invalid vibe". split; [| right; right; auto].
      apply create_checkout_rejected. unfold validate.
      rewrite Hfields, Htier. apply get_Missing in Hvibe. rewrite Hvibe. reflexivity.
    + exists "Invalid tier". apply get_Missing in Htier as Hunknown.
      split; [| right; left; auto].
      apply create_checkout_rejected. unfold validate.
      rewrite Hfields, Htier. reflexivity.
Qed.

Lemma checkout_validation_witness :
  create_checkout Demo.runtime (Demo.with_tier Demo.checkout_body (JStr "canvas"))
                  Demo.after_one_delivery
  = (Responded (status_json 400 (ErrorJson "Invalid tier")), Demo.after_one_delivery).
Proof.
  destruct (checkout_validation Demo.runtime
              (Demo.with_tier Demo.checkout_body (JStr "canvas"))
              Demo.after_one_delivery) as (reason & Hrun & Hreason).
  - right. left. apply get_Missing. reflexivity.
  - destruct Hreason as [[Hmissing _] | [(_ & _ & ->) | (_ & Hknown & _)]].
    + exfalso. unfold missing_required in Hmissing. cbn in Hmissing.
      repeat (destruct Hmissing as [Hmissing | Hmissing]; [discriminate |]).
      discriminate.
    + exact Hrun.
    + exfalso. apply Hknown. apply get_Missing. reflexivity.
Defined.

(** ** Status updates *)

Lemma find_ref_present orderId l o :
  In o l -> Order.id o = JStr orderId ->
  exists i order,
    find_ref (has_id orderId) l = Some (i, order)
    /\ l !! i = Some order /\ Order.id order = JStr orderId.
Proof.
  intros Hin Hid.
  destruct (find_ref (has_id orderId) l) as [[i order] |] eqn:Hfind.
  - exists i, order. destruct (find_ref_Some _ _ _ _ Hfind) as (Hl & Hp & _).
    repeat split; [exact Hl |]. apply strict_eq_JStr. exact Hp.
  - exfalso. apply find_ref_None in Hfind. rewrite List.Forall_forall in Hfind.
    specialize (Hfind o Hin). unfold has_id in Hfind. rewrite Hid in Hfind.
    cbn [strict_eq] in Hfind. rewrite String.eqb_refl in Hfind. discriminate.
Qed.

Lemma find_ref_absent orderId l :
  (forall o, In o l -> Order.id o <> JStr orderId) ->
  find_ref (has_id orderId) l = None.
Proof.
  intros Habsent. apply find_ref_None, List.Forall_forall. intros o Hin.
  destruct (has_id orderId o) eqn:Hid; [| reflexivity].
  apply strict_eq_JStr in Hid. destruct (Habsent o Hin Hid).
Qed.

(** The PATCH handler on a string status and an order it finds. *)
Lemma update_status_string rt orderId s st i order :
  find_ref (has_id orderId) (orders (data st)) = Some (i, order) ->
  let order' := Order.set_status order (JStr s) (toISOString_now rt (clock_reads st)) in
  update_status rt orderId (JStr s) st
  = (Responded (json (OrderJson order')),
     after_mail rt "Status email error:" (status_mail rt order orderId s)
       (stored st (with_order_at (data st) i order') 1)).
Proof.
  intros Hfind order'. rewrite (update_status_found _ _ _ _ _ _ Hfind). reflexivity.
Qed.

(** C4. For an identifier that no order of the store carries, the handler
    answers 404 Order not found and the state is exactly what it was.  For
    an identifier that some order carries, and a status label [s], the
    first such order gets [s] as its status and the current time as its
    updatedAt, in memory and in db.json; every other order is as before; the
    transport is handed one mail to the customer of that order with [s] in
    upper case and its message; and the answer is the updated order. *)
Theorem update_status_spec rt orderId st :
  ((forall o, In o (orders (data st)) -> Order.id o <> JStr orderId) ->
   forall status,
     update_status rt orderId status st
     = (Responded (status_json 404 (ErrorJson "Order not found")), st))
  /\ (forall o s,
        In o (orders (data st)) -> Order.id o = JStr orderId ->
        exists i order,
          orders (data st) !! i = Some order
          /\ Order.id order = JStr orderId
          /\ let order' :=
               Order.set_status order (JStr s) (toISOString_now rt (clock_reads st)) in
             let st' := snd (update_status rt orderId (JStr s) st) in
             fst (update_status rt orderId (JStr s) st)
             = Responded (json (OrderJson order'))
             /\ Order.status order' = JStr s
             /\ Order.updatedAt order' = toISOString_now rt (clock_reads st)
             /\ orders (data st') = <[i := order']> (orders (data st))
             /\ uploads (data st') = uploads (data st)
             /\ file st' = data st'
             /\ mail_attempts st'
                = (mail_attempts st ++ [status_mail rt order orderId s])%list).
Proof.
  split.
  - intros Habsent status. apply update_status_not_found, find_ref_absent, Habsent.
  - intros o s Hin Hid.
    destruct (find_ref_present orderId _ o Hin Hid) as (i & order & Hfind & Hl & Hoid).
    exists i, order. split; [exact Hl |]. split; [exact Hoid |].
    intros order' st'. subst st'. rewrite (update_status_string _ _ _ _ _ _ Hfind).
    repeat split.
Qed.

Lemma update_status_spec_witness :
  update_status Demo.runtime "no-such-order" (JStr "shipped") Demo.after_one_delivery
  = (Responded (status_json 404 (ErrorJson "Order not found")), Demo.after_one_delivery)
  /\ exists order',
       fst (update_status Demo.runtime "8f14e45f-ceea-467f-a0e6-5a1d2b9c3e77"
                          (JStr "shipped") Demo.after_one_delivery)
       = Responded (json (OrderJson order'))
       /\ Order.status order' = JStr "shipped".
Proof.
  destruct (update_status_spec Demo.runtime "no-such-order" Demo.after_one_delivery)
    as [Habsent _].
  destruct (update_status_spec Demo.runtime "8f14e45f-ceea-467f-a0e6-5a1d2b9c3e77"
              Demo.after_one_delivery) as [_ Hpresent].
  split.
  - apply Habsent. intros o [<- | []]. discriminate.
  - destruct (Hpresent (delivered_order Demo.runtime Demo.paid_session initial)
                "shipped" (or_introl eq_refl) eq_refl)
      as (i & order & _ & _ & Hrun & Hstatus & _).
    eexists. split; [exact Hrun | exact Hstatus].
Defined.

(** C10 (counterexample). A PATCH with no status in its body, for the
    order in the store: the order's status becomes undefined and is written,
    but composing the mail throws, so the handler answers 500 Failed to
    update order and no mail is handed to the transport. *)
Lemma missing_status_answers_500 :
  let run := update_status Demo.runtime "8f14e45f-ceea-467f-a0e6-5a1d2b9c3e77"
                           JUndefined Demo.after_one_delivery in
  fst run = Responded (status_json 500 (ErrorJson "Failed to update order"))
  /\ (exists o, orders (data (snd run)) = [o] /\ Order.status o = JUndefined)
  /\ mail_attempts (snd run) = mail_attempts Demo.after_one_delivery.
Proof.
  split; [reflexivity |]. split; [| reflexivity].
  eexists. split; [vm_compute; reflexivity | reflexivity].
Qed.

(** C10 (amended). For an identifier that some order of the store carries
    and every string [s], one of the seven documented labels or not, the
    handler checks nothing about [s]: it answers 200 with the order, and the
    first order of that identifier holds exactly [s] as its status, in
    memory and in db.json. *)
Theorem update_status_stores_any_string rt orderId (s : string) st o :
  In o (orders (data st)) ->
  Order.id o = JStr orderId ->
  exists i order',
    fst (update_status rt orderId (JStr s) st) = Responded (json (OrderJson order'))
    /\ Order.status order' = JStr s
    /\ orders (data (snd (update_status rt orderId (JStr s) st))) !! i = Some order'
    /\ orders (file (snd (update_status rt orderId (JStr s) st))) !! i = Some order'
    /\ Forall (fun earlier => Order.id earlier <> JStr orderId)
              (take i (orders (data st))).
Proof.
  intros Hin Hid.
  destruct (find_ref_present orderId _ o Hin Hid) as (i & order & Hfind & Hl & _).
  exists i, (Order.set_status order (JStr s) (toISOString_now rt (clock_reads st))).
  rewrite (update_status_string _ _ _ _ _ _ Hfind).
  cbn [fst snd after_mail stored with_order_at data file orders].
  assert (Hi : (i < length (orders (data st)))%nat) by (eapply lookup_lt_Some; eassumption).
  repeat split; try (apply list_lookup_insert_eq; exact Hi).
  destruct (find_ref_Some _ _ _ _ Hfind) as (_ & _ & Hearlier).
  eapply List.Forall_impl; [| exact Hearlier].
  intros earlier Hno Heq. unfold has_id in Hno. rewrite Heq in Hno.
  cbn [strict_eq] in Hno. rewrite String.eqb_refl in Hno. discriminate.
Qed.

(** The label on_hold is none of the seven, and is stored all the same. *)
Lemma update_status_stores_any_string_witness :
  ~ documented_status "on_hold"
  /\ exists i order',
       fst (update_status Demo.runtime "8f14e45f-ceea-467f-a0e6-5a1d2b9c3e77"
                          (JStr "on_hold") Demo.after_one_delivery)
       = Responded (json (OrderJson order'))
       /\ Order.status order' = JStr "on_hold"
       /\ orders (data (snd (update_status Demo.runtime
                               "8f14e45f-ceea-467f-a0e6-5a1d2b9c3e77"
                               (JStr "on_hold") Demo.after_one_delivery))) !! i
          = Some order'.
Proof.
  split; [intros [m Hm]; discriminate |].
  destruct (update_status_stores_any_string Demo.runtime
              "8f14e45f-ceea-467f-a0e6-5a1d2b9c3e77" "on_hold" Demo.after_one_delivery
              (delivered_order Demo.runtime Demo.paid_session initial)
              (or_introl eq_refl) eq_refl)
    as (i & order' & Hrun & Hstatus & Hstored & _).
  exists i, order'. repeat split; assumption.
Defined.

(** ** Mail failures *)

Lemma webhook_any_transport rt send payload sig st :
  result (webhook (with_sendMail rt send) payload sig st)
  = result (webhook rt payload sig st).
Proof.
  destruct (constructEvent rt payload sig (STRIPE_WEBHOOK_SECRET rt))
    as [event | err] eqn:Hverify.
  - destruct (String.eqb_spec (Event.type event) "checkout.session.completed")
      as [Htype | Htype].
    + rewrite (webhook_completed_run rt _ _ _ _ Hverify Htype).
      rewrite (webhook_completed_run (with_sendMail rt send) _ _ _ event Hverify Htype).
      change (delivered_order (with_sendMail rt send)) with (delivered_order rt).
      destruct (member_name _); reflexivity.
    + rewrite (webhook_other_run rt _ _ _ _ Hverify Htype).
      rewrite (webhook_other_run (with_sendMail rt send) _ _ _ event Hverify Htype).
      reflexivity.
  - rewrite (webhook_unverified_run rt _ _ _ _ Hverify).
    rewrite (webhook_unverified_run (with_sendMail rt send) _ _ _ err Hverify).
    reflexivity.
Qed.

Lemma update_status_any_transport rt send orderId status st :
  result (update_status (with_sendMail rt send) orderId status st)
  = result (update_status rt orderId status st).
Proof.
  destruct (find_ref (has_id orderId) (orders (data st))) as [[i order] |] eqn:Hfind.
  - rewrite !(update_status_found _ _ _ _ _ _ Hfind).
    change (method_toUpperCase (with_sendMail rt send)) with (method_toUpperCase rt).
    destruct (method_toUpperCase rt status); reflexivity.
  - rewrite !(update_status_not_found _ _ _ _ Hfind). reflexivity.
Qed.

(** C8. Whatever the mail transport does, and in particular when every
    send fails, the webhook and the status update give the answer and leave
    the store, in memory and in db.json, that they give and leave with a
    transport that delivers: a failed send is neither passed on to the
    caller nor undone in the store.  With a transport that fails every send
    with [err], a new order whose tier PRODUCTS serves is pushed and
    acknowledged and each of its two mails leaves one line on the console,
    and a status update to a string is stored and answered with the order
    and leaves one line on the console. *)
Theorem mail_failures_are_not_fatal rt st :
  (forall send payload sig,
     result (webhook (with_sendMail rt send) payload sig st)
     = result (webhook rt payload sig st))
  /\ (forall send orderId status,
        result (update_status (with_sendMail rt send) orderId status st)
        = result (update_status rt orderId status st))
  /\ (forall err payload sig event productName,
        let down := with_sendMail rt (fun n mail => Throw (err n mail)) in
        let order := delivered_order rt (Event.data_object event) st in
        let sent := length (mail_attempts st) in
        constructEvent rt payload sig (STRIPE_WEBHOOK_SECRET rt) = Normal event ->
        Event.type event = "checkout.session.completed" ->
        member_name (get PRODUCTS (Order.tier order)) = Normal productName ->
        fst (webhook down payload sig st) = Responded (json ReceivedJson)
        /\ orders (data (snd (webhook down payload sig st)))
           = (orders (data st) ++ [order])%list
        /\ file (snd (webhook down payload sig st))
           = data (snd (webhook down payload sig st))
        /\ console (snd (webhook down payload sig st))
           = (console st
              ++ [("Email error:",
                   message (err sent (confirmation_mail order productName)));
                  ("Internal email error:",
                   message (err (S sent) (internal_mail rt order productName)))])%list)
  /\ (forall err orderId s i order,
        let down := with_sendMail rt (fun n mail => Throw (err n mail)) in
        let order' :=
          Order.set_status order (JStr s) (toISOString_now rt (clock_reads st)) in
        find_ref (has_id orderId) (orders (data st)) = Some (i, order) ->
        fst (update_status down orderId (JStr s) st) = Responded (json (OrderJson order'))
        /\ orders (data (snd (update_status down orderId (JStr s) st)))
           = <[i := order']> (orders (data st))
        /\ file (snd (update_status down orderId (JStr s) st))
           = data (snd (update_status down orderId (JStr s) st))
        /\ console (snd (update_status down orderId (JStr s) st))
           = (console st
              ++ [("Status email error:",
                   message (err (length (mail_attempts st))
                                (status_mail rt order orderId s)))])%list).
Proof.
  split; [intros; apply webhook_any_transport |].
  split; [intros; apply update_status_any_transport |].
  split.
  - intros err payload sig event productName down order sent Hverify Htype Hname.
    subst down.
    rewrite (webhook_completed_run (with_sendMail rt _) _ _ _ event Hverify Htype).
    change (delivered_order (with_sendMail rt _) (Event.data_object event) st)
      with order.
    rewrite Hname. cbn [fst snd after_mail stored data file orders console
                        with_order mail_attempts mail_errors sendMail with_sendMail].
    repeat split. rewrite length_app, <- app_assoc. cbn [length app].
    rewrite Nat.add_1_r. reflexivity.
  - intros err orderId s i order down order' Hfind. subst down.
    rewrite (update_status_string (with_sendMail rt _) _ _ _ _ _ Hfind).
    repeat split.
Qed.

Lemma mail_failures_are_not_fatal_witness :
  fst (webhook (with_sendMail Demo.runtime Demo.mail_down) "completed"
               (JStr "t=1,v1=good") initial)
  = Responded (json ReceivedJson)
  /\ length (orders (data (snd (webhook (with_sendMail Demo.runtime Demo.mail_down)
                                        "completed" (JStr "t=1,v1=good") initial))))
     = 1%nat
  /\ console (snd (webhook (with_sendMail Demo.runtime Demo.mail_down) "completed"
                           (JStr "t=1,v1=good") initial))
     = [("Email error:", "connect ECONNREFUSED");
        ("Internal email error:", "connect ECONNREFUSED")].
Proof.
  destruct (mail_failures_are_not_fatal Demo.runtime initial) as (_ & _ & Hdown & _).
  destruct (Hdown (fun _ _ => MailError "connect ECONNREFUSED") "completed"
              (JStr "t=1,v1=good") Demo.completed_event (JStr "Fine-Art Print")
              eq_refl eq_refl eq_refl) as (Hack & Horders & _ & Hconsole).
  split; [exact Hack |]. split; [| exact Hconsole].
  change Demo.mail_down with (fun (_ : nat) (_ : MailOptions) =>
    @Throw unit (MailError "connect ECONNREFUSED")).
  rewrite Horders. reflexivity.
Defined.

(** * Further properties of the routes *)

(** ** Uploads *)

Lemma append_same_length a1 a2 b1 b2 :
  String.length a1 = String.length a2 -> a1 ++ b1 = a2 ++ b2 -> a1 = a2 /\ b1 = b2.
Proof.
  revert a2. induction a1 as [| c a1 IH]; intros [| c2 a2] Hlen Heq;
    cbn in Hlen; try discriminate.
  - split; [reflexivity | exact Heq].
  - cbn in Heq. injection Heq as -> Heq. injection Hlen as Hlen.
    destruct (IH a2 Hlen Heq) as [-> ->]. split; reflexivity.
Qed.

Lemma substring_all s : substring 0 (String.length s) s = s.
Proof. induction s as [| c s IH]; cbn; [reflexivity | rewrite IH; reflexivity]. Qed.

Lemma substring_skip a k n s :
  substring (String.length a + k) n (a ++ s) = substring k n s.
Proof. induction a as [| c a IH]; cbn; [reflexivity | exact IH]. Qed.

(** X1. The stored name of an upload is the drawn identifier, a dash and
    the original name, so the original name can be read back from it; and
    when the generator gives two identifiers of the same length that differ,
    the two stored names differ whatever the original names are. *)
Theorem storage_filename_unique rt name1 name2 st1 st2 :
  String.length (uuidv4 rt (uuids_drawn st1))
  = String.length (uuidv4 rt (uuids_drawn st2)) ->
  uuidv4 rt (uuids_drawn st1) <> uuidv4 rt (uuids_drawn st2) ->
  (exists stored1 stored2,
     fst (storage_filename rt name1 st1) = Normal stored1
     /\ fst (storage_filename rt name2 st2) = Normal stored2
     /\ stored1 <> stored2
     /\ substring (S (String.length (uuidv4 rt (uuids_drawn st1))))
                  (String.length name1) stored1 = name1)
  /\ uuids_drawn (snd (storage_filename rt name1 st1)) = S (uuids_drawn st1).
Proof.
  intros Hlen Hne. split; [| reflexivity].
  eexists. eexists. split; [reflexivity |]. split; [reflexivity |]. split.
  - intros Heq. apply Hne. apply (append_same_length _ _ _ _ Hlen Heq).
  - cbn [append]. rewrite <- Nat.add_1_r, substring_skip. cbn [substring].
    apply substring_all.
Qed.

Lemma storage_filename_unique_witness :
  exists stored1 stored2,
    fst (storage_filename Demo.runtime "family.jpg" initial) = Normal stored1
    /\ fst (storage_filename Demo.runtime "family.jpg" (drawn initial)) = Normal stored2
    /\ stored1 <> stored2
    /\ substring 26 10 stored1 = "family.jpg".
Proof.
  destruct (storage_filename_unique Demo.runtime "family.jpg" "family.jpg"
              initial (drawn initial)) as [(s1 & s2 & H1 & H2 & Hne & Hname) _].
  - reflexivity.
  - discriminate.
  - exists s1, s2. repeat split; assumption.
Defined.

Lemma fileFilter_Accept mimetype :
  In mimetype allowedTypes -> fileFilter mimetype = Accept.
Proof.
  intros Hin. unfold fileFilter.
  replace (existsb (String.eqb mimetype) allowedTypes) with true; [reflexivity |].
  symmetry. apply existsb_exists. exists mimetype. split; [exact Hin |].
  apply String.eqb_refl.
Qed.

Lemma fileFilter_Refuse mimetype :
  ~ In mimetype allowedTypes -> fileFilter mimetype = Refuse "Invalid file type".
Proof.
  intros Hout. unfold fileFilter.
  destruct (existsb (String.eqb mimetype) allowedTypes) eqn:Hex; [| reflexivity].
  exfalso. apply Hout. apply existsb_exists in Hex. destruct Hex as (t & Hin & Heq).
  apply String.eqb_eq in Heq. subst t. exact Hin.
Qed.

(** How the upload route goes for a request that carries the part. *)
Lemma upload_route_run rt p st :
  let stored_name := uuidv4 rt (uuids_drawn st) ++ "-" ++ Part.originalname p in
  let record :=
    {| Upload.id := uuidv4 rt (S (uuids_drawn st));
       Upload.filename := stored_name;
       Upload.originalName := Part.originalname p;
       Upload.path := "uploads/" ++ stored_name;
       Upload.size := Part.size p;
       Upload.uploadedAt := toISOString_now rt (clock_reads st) |} in
  upload_route rt (Some p) st
  = match fileFilter (Part.mimetype p) with
    | Refuse message => (HandedToExpress message, st)
    | Accept =>
        if Part.limit_reached p then (HandedToExpress "File too large", drawn st)
        else
          (Handled (Answered (reply_json
                      (UploadedJson (uuidv4 rt (S (uuids_drawn st))) stored_name
                                    ("/uploads/" ++ stored_name)))),
           drawn (drawn (stored st {| orders := orders (data st);
                                      uploads := uploads (data st) ++ [record] |} 1)))
    end.
Proof.
  unfold upload_route, upload_single.
  destruct (fileFilter (Part.mimetype p)); [| reflexivity].
  cbn [storage_filename bind fresh_uuid ret]. destruct (Part.limit_reached p); reflexivity.
Qed.

(** X2. The upload route.  A request without the photo part is answered
    400 No file uploaded and changes nothing.  A part whose type is not one
    of the four allowed is refused by the file filter: the error Invalid file
    type goes to Express, the handler does not run, nothing is drawn and
    nothing is stored.  A part of an allowed type whose stream reaches the
    size limit costs the one uuid of its stored name and is given up with
    File too large.  Any other part of an allowed type draws two uuids, the
    first for the stored name and the second for the upload id: the answer
    carries the second as the id, the stored name and the URL /uploads/
    followed by it; exactly one record with that id, the stored and the
    original name, the path under uploads/ and the size is appended to the
    uploads and written to db.json; the orders, Stripe and the mail
    transport are not touched. *)
Theorem upload_route_records rt st :
  upload_route rt None st
  = (Handled (Answered (reply_status 400 (FailureJson "No file uploaded"))), st)
  /\ forall p,
       (~ In (Part.mimetype p) allowedTypes ->
        upload_route rt (Some p) st = (HandedToExpress "Invalid file type", st))
       /\ (In (Part.mimetype p) allowedTypes -> Part.limit_reached p = true ->
           upload_route rt (Some p) st = (HandedToExpress "File too large", drawn st))
       /\ (In (Part.mimetype p) allowedTypes -> Part.limit_reached p = false ->
           let stored_name := uuidv4 rt (uuids_drawn st) ++ "-" ++ Part.originalname p in
           let st' := snd (upload_route rt (Some p) st) in
           fst (upload_route rt (Some p) st)
           = Handled (Answered (reply_json
                        (UploadedJson (uuidv4 rt (S (uuids_drawn st))) stored_name
                                      ("/uploads/" ++ stored_name))))
           /\ uploads (data st')
              = (uploads (data st)
                 ++ [{| Upload.id := uuidv4 rt (S (uuids_drawn st));
                        Upload.filename := stored_name;
                        Upload.originalName := Part.originalname p;
                        Upload.path := "uploads/" ++ stored_name;
                        Upload.size := Part.size p;
                        Upload.uploadedAt := toISOString_now rt (clock_reads st) |}])%list
           /\ orders (data st') = orders (data st)
           /\ file st' = data st'
           /\ uuids_drawn st' = S (S (uuids_drawn st))
           /\ stripe_requests st' = stripe_requests st
           /\ mail_attempts st' = mail_attempts st).
Proof.
  split; [unfold upload_route, upload_single; destruct st; reflexivity |].
  intros p. split; [| split].
  - intros Hout. rewrite upload_route_run, (fileFilter_Refuse _ Hout). reflexivity.
  - intros Hin Hlimit. rewrite upload_route_run, (fileFilter_Accept _ Hin), Hlimit.
    reflexivity.
  - intros Hin Hlimit stored_name st'. subst st'.
    rewrite upload_route_run, (fileFilter_Accept _ Hin), Hlimit. repeat split.
Qed.

(** On a fresh server the photo gets the second uuid as its id; a GIF is
    refused. *)
Lemma upload_route_records_witness :
  fst (upload_route Demo.runtime (Some DemoRoutes.photo_part) initial)
  = Handled (Answered (reply_json
               (UploadedJson "00000000-0000-4000-8000-1"
                             "00000000-0000-4000-8000-0-family.jpg"
                             "/uploads/00000000-0000-4000-8000-0-family.jpg")))
  /\ upload_route Demo.runtime (Some DemoRoutes.gif_part) initial
     = (HandedToExpress "Invalid file type", initial).
Proof.
  destruct (upload_route_records Demo.runtime initial) as [_ Hpart].
  split.
  - destruct (Hpart DemoRoutes.photo_part) as (_ & _ & Hstored).
    destruct Hstored as (Hanswer & _).
    + left. reflexivity.
    + reflexivity.
    + exact Hanswer.
  - destruct (Hpart DemoRoutes.gif_part) as (Hrefused & _).
    apply Hrefused. cbn. intros [H | [H | [H | [H | []]]]]; discriminate.
Defined.

(** ** Checkout and the store *)

(** What a checkout leaves of the state, whichever way it ends. *)
Lemma create_checkout_frame rt b st :
  let st' := snd (create_checkout rt b st) in
  data st' = data st /\ file st' = file st
  /\ mail_attempts st' = mail_attempts st /\ clock_reads st' = clock_reads st
  /\ (uuids_drawn st <= uuids_drawn st')%nat.
Proof.
  destruct (validate b) as [rejection |] eqn:Hv.
  - rewrite (create_checkout_rejected _ _ _ _ Hv). cbn. repeat split. lia.
  - destruct (checkout_params_run rt b st Hv) as (params & Hrun & _).
    rewrite (create_checkout_accepted _ _ _ _ Hv Hrun).
    destruct (sessions_create rt _ params); cbn; repeat split; lia.
Qed.

(** X3. A checkout never writes to the store: whatever the body and
    however Stripe answers, the orders and uploads in memory and db.json are
    what they were, no mail is sent and the clock is not read.  No order
    exists before the webhook is called. *)
Theorem create_checkout_leaves_store rt b st :
  data (snd (create_checkout rt b st)) = data st
  /\ file (snd (create_checkout rt b st)) = file st
  /\ mail_attempts (snd (create_checkout rt b st)) = mail_attempts st
  /\ clock_reads (snd (create_checkout rt b st)) = clock_reads st.
Proof.
  destruct (create_checkout_frame rt b st) as (Hd & Hf & Hm & Hc & _).
  repeat split; assumption.
Qed.

(** X4. A checkout never reads the store either: in two states that have
    sent Stripe as many requests and drawn as many identifiers, the same
    body gets the same answer and sends Stripe the same request, whatever
    orders and uploads the two states hold.  In particular the upload id of
    the body is not looked up. *)
Theorem create_checkout_ignores_store rt b st1 st2 :
  length (stripe_requests st1) = length (stripe_requests st2) ->
  uuids_drawn st1 = uuids_drawn st2 ->
  fst (create_checkout rt b st1) = fst (create_checkout rt b st2)
  /\ forall params,
       stripe_requests (snd (create_checkout rt b st1))
       = (stripe_requests st1 ++ [params])%list ->
       stripe_requests (snd (create_checkout rt b st2))
       = (stripe_requests st2 ++ [params])%list.
Proof.
  intros Hsent Hdrawn. destruct (validate b) as [rejection |] eqn:Hv.
  - rewrite !(create_checkout_rejected _ _ _ _ Hv). split; [reflexivity |].
    cbn [snd]. intros params H. exfalso.
    apply (f_equal (@length _)) in H. rewrite length_app in H. cbn in H. lia.
  - destruct (checkout_params_run rt b st1 Hv) as (p1 & Hrun1 & _).
    destruct (checkout_params_run rt b st2 Hv) as (p2 & Hrun2 & _).
    assert (Hsame : p1 = p2).
    { unfold checkout_params, bind, lift, fresh_uuid, ret in Hrun1, Hrun2.
      destruct (member_price _); [| discriminate].
      destruct (member_name _); [| discriminate].
      destruct (method_toString _); [| discriminate].
      rewrite Hdrawn in Hrun1. congruence. }
    subst p2.
    rewrite (create_checkout_accepted _ _ _ _ Hv Hrun1),
      (create_checkout_accepted _ _ _ _ Hv Hrun2), Hsent.
    destruct (sessions_create rt _ p1); cbn [fst snd requested logged stripe_requests];
      (split; [reflexivity |]); intros params H; apply app_inj_tail in H;
      destruct H as [_ ->]; reflexivity.
Qed.

Lemma create_checkout_ignores_store_witness :
  fst (create_checkout Demo.runtime Demo.checkout_body Demo.after_one_delivery)
  = fst (create_checkout Demo.runtime Demo.checkout_body initial).
Proof.
  apply (create_checkout_ignores_store Demo.runtime Demo.checkout_body
           Demo.after_one_delivery initial); reflexivity.
Defined.

(** X5. When a body passes the validation and Stripe refuses the request
    or cannot be reached, the handler answers 500 Failed to create checkout
    session and logs Stripe's message; one request has been sent and one
    identifier drawn, and the store is as it was. *)
Theorem create_checkout_stripe_failure rt b st err :
  validate b = None ->
  (forall params, sessions_create rt (length (stripe_requests st)) params = Throw err) ->
  let st' := snd (create_checkout rt b st) in
  fst (create_checkout rt b st)
  = Responded (status_json 500 (ErrorJson "Failed to create checkout session"))
  /\ console st' = (console st ++ [("Checkout error:", message err)])%list
  /\ length (stripe_requests st') = S (length (stripe_requests st))
  /\ uuids_drawn st' = S (uuids_drawn st)
  /\ data st' = data st /\ file st' = file st.
Proof.
  intros Hv Hfail st'. subst st'.
  destruct (checkout_params_run rt b st Hv) as (params & Hrun & _).
  rewrite (create_checkout_accepted _ _ _ _ Hv Hrun), (Hfail params).
  cbn [fst snd logged requested console stripe_requests uuids_drawn data file].
  rewrite length_app. cbn [length]. repeat split. lia.
Qed.

Lemma create_checkout_stripe_failure_witness :
  fst (create_checkout DemoRoutes.stripe_down Demo.checkout_body initial)
  = Responded (status_json 500 (ErrorJson "Failed to create checkout session"))
  /\ console (snd (create_checkout DemoRoutes.stripe_down Demo.checkout_body initial))
     = [("Checkout error:", "An error occurred with our connection to Stripe.")].
Proof.
  destruct (create_checkout_stripe_failure DemoRoutes.stripe_down Demo.checkout_body
              initial (StripeError "An error occurred with our connection to Stripe.")
              eq_refl (fun _ => eq_refl)) as (Hanswer & Hconsole & _).
  split; [exact Hanswer | exact Hconsole].
Defined.

(** ** The webhook and the order query *)

(** X6. A verified checkout.session.completed event whose metadata names
    a tier that PRODUCTS does not serve (or names none, as for a session
    that this server did not open): the order is pushed and written to
    db.json, then composing the confirmation throws outside any try block,
    so the handler never answers and hands no mail to the transport. *)
Theorem webhook_unserved_tier rt payload sig st event :
  constructEvent rt payload sig (STRIPE_WEBHOOK_SECRET rt) = Normal event ->
  Event.type event = "checkout.session.completed" ->
  unknown_code PRODUCTS (meta (Session.metadata (Event.data_object event)) "tier") ->
  let st' := snd (webhook rt payload sig st) in
  fst (webhook rt payload sig st)
  = Unhandled (TypeError "Cannot read properties of undefined (reading 'name')")
  /\ orders (data st')
     = (orders (data st) ++ [delivered_order rt (Event.data_object event) st])%list
  /\ file st' = data st'
  /\ mail_attempts st' = mail_attempts st
  /\ console st' = console st.
Proof.
  intros Hverify Htype Htier st'. subst st'.
  rewrite (webhook_completed_run _ _ _ _ _ Hverify Htype).
  apply get_Missing in Htier.
  change (Order.tier (delivered_order rt (Event.data_object event) st))
    with (meta (Session.metadata (Event.data_object event)) "tier").
  rewrite Htier. repeat split.
Qed.

Lemma webhook_unserved_tier_witness :
  fst (webhook DemoRoutes.runtime "foreign" JUndefined initial)
  = Unhandled (TypeError "Cannot read properties of undefined (reading 'name')")
  /\ length (orders (data (snd (webhook DemoRoutes.runtime "foreign" JUndefined initial))))
     = 1%nat
  /\ mail_attempts (snd (webhook DemoRoutes.runtime "foreign" JUndefined initial)) = [].
Proof.
  destruct (webhook_unserved_tier DemoRoutes.runtime "foreign" JUndefined initial
              DemoRoutes.foreign_event eq_refl eq_refl)
    as (Hout & Horders & _ & Hmail & _).
  - apply get_Missing. reflexivity.
  - split; [exact Hout |]. split; [rewrite Horders; reflexivity | exact Hmail].
Defined.

(** How the order query ends, by what Stripe answers and what the store
    holds. *)
Lemma get_order_run retrieved sessionId st :
  get_order retrieved sessionId st
  = match retrieved with
    | Throw e =>
        (Answered (reply_status 500 (FailureJson "Failed to fetch order")),
         logged st "Order fetch error:" (message e))
    | Normal session =>
        match order_by_session sessionId st with
        | None => (Answered (reply_status 404 (FailureJson "Order not found")), st)
        | Some order =>
            (Answered (reply_json (OrderDetailsJson order
                                     (Retrieved.payment_status session)
                                     (Retrieved.customer_email session))), st)
        end
    end.
Proof.
  unfold get_order, finish, try_catch, bind, lift, ret.
  destruct retrieved as [session | e]; [| reflexivity].
  destruct (order_by_session sessionId st); reflexivity.
Qed.

Lemma order_by_session_head sessionId st :
  order_by_session sessionId st = head (orders_of_session (JStr sessionId) st).
Proof.
  unfold order_by_session, orders_of_session.
  induction (orders (data st)) as [| o l IH]; cbn [find_ref List.filter option_map];
    [reflexivity |].
  destruct (strict_eq (Order.stripeSessionId o) (JStr sessionId)); [reflexivity |].
  rewrite <- IH. destruct (find_ref _ l) as [[i found] |]; reflexivity.
Qed.

(** X7. The order query answers 500 Failed to fetch order whenever the
    retrieval from Stripe fails, even for a session whose order is in the
    store; otherwise 404 Order not found exactly when no order of the store
    carries the session id, and else 200 with the first order that carries
    it and Stripe's payment status.  It never changes the store, sends no
    mail and opens no session. *)
Theorem get_order_answers retrieved sessionId st :
  let st' := snd (get_order retrieved sessionId st) in
  (forall e, retrieved = Throw e ->
     fst (get_order retrieved sessionId st)
     = Answered (reply_status 500 (FailureJson "Failed to fetch order")))
  /\ (forall session, retrieved = Normal session ->
        st' = st
        /\ (orders_of_session (JStr sessionId) st = [] ->
            fst (get_order retrieved sessionId st)
            = Answered (reply_status 404 (FailureJson "Order not found")))
        /\ (forall first others,
              orders_of_session (JStr sessionId) st = first :: others ->
              fst (get_order retrieved sessionId st)
              = Answered (reply_json (OrderDetailsJson first
                                        (Retrieved.payment_status session)
                                        (Retrieved.customer_email session)))))
  /\ data st' = data st /\ file st' = file st
  /\ mail_attempts st' = mail_attempts st
  /\ stripe_requests st' = stripe_requests st.
Proof.
  intros st'. subst st'. rewrite get_order_run, order_by_session_head.
  split; [intros e ->; reflexivity |]. split.
  - intros session ->.
    destruct (orders_of_session (JStr sessionId) st) as [| o l]; cbn [head].
    + repeat split. intros first others H. discriminate.
    + repeat split; [discriminate |]. intros first others [= -> ->]. reflexivity.
  - destruct retrieved as [session | e]; [| repeat split].
    destruct (head _); repeat split.
Qed.

Lemma get_order_answers_witness :
  fst (get_order (Throw (StripeError "No such checkout.session")) "cs_test_a1B2c3"
                 Demo.after_one_delivery)
  = Answered (reply_status 500 (FailureJson "Failed to fetch order"))
  /\ fst (get_order (Normal DemoRoutes.paid) "cs_test_unknown" Demo.after_one_delivery)
     = Answered (reply_status 404 (FailureJson "Order not found")).
Proof.
  split.
  - destruct (get_order_answers (Throw (StripeError "No such checkout.session"))
                "cs_test_a1B2c3" Demo.after_one_delivery) as (Hfail & _).
    exact (Hfail _ eq_refl).
  - destruct (get_order_answers (Normal DemoRoutes.paid) "cs_test_unknown"
                Demo.after_one_delivery) as (_ & Hok & _).
    destruct (Hok _ eq_refl) as (_ & Habsent & _). apply Habsent. reflexivity.
Defined.

(** X8. Push and look up: once a verified checkout.session.completed event
    has been delivered into a store that held no order of its session, the
    order query for that session id answers with the order that delivery
    built, and it goes on answering with that first order however many
    times the same event is delivered again. *)
Theorem get_order_after_delivery rt payload sig st event session n :
  constructEvent rt payload sig (STRIPE_WEBHOOK_SECRET rt) = Normal event ->
  Event.type event = "checkout.session.completed" ->
  orders_of_session (JStr (Session.id (Event.data_object event))) st = [] ->
  fst (get_order (Normal session) (Session.id (Event.data_object event))
                 (deliveries rt payload sig (S n) st))
  = Answered (reply_json
                (OrderDetailsJson (delivered_order rt (Event.data_object event) st)
                   (Retrieved.payment_status session)
                   (Retrieved.customer_email session))).
Proof.
  intros Hverify Htype Hnone.
  set (sid := Session.id (Event.data_object event)) in *.
  set (first := delivered_order rt (Event.data_object event) st).
  assert (Hgrow : forall k s others,
            orders_of_session (JStr sid) s = first :: others ->
            exists others',
              orders_of_session (JStr sid) (deliveries rt payload sig k s)
              = first :: others').
  { induction k as [| k IH]; intros s others Hs; cbn [deliveries]; [eauto |].
    apply (IH _ (others ++ [delivered_order rt (Event.data_object event) s])%list).
    unfold orders_of_session in *.
    rewrite (webhook_completed_orders _ _ _ _ _ Hverify Htype), List.filter_app, Hs.
    cbn [List.filter delivered_order order_of_session Order.stripeSessionId strict_eq].
    fold sid. rewrite String.eqb_refl. reflexivity. }
  cbn [deliveries].
  destruct (Hgrow n (snd (webhook rt payload sig st)) []) as [others' Hafter].
  - unfold orders_of_session in *.
    rewrite (webhook_completed_orders _ _ _ _ _ Hverify Htype), List.filter_app, Hnone.
    cbn [List.filter delivered_order order_of_session Order.stripeSessionId strict_eq app].
    fold sid. rewrite String.eqb_refl. reflexivity.
  - rewrite get_order_run, order_by_session_head, Hafter. reflexivity.
Qed.

Lemma get_order_after_delivery_witness :
  fst (get_order (Normal DemoRoutes.paid) "cs_test_a1B2c3"
         (deliveries Demo.runtime "completed" (JStr "t=1,v1=good") 3 initial))
  = Answered (reply_json
                (OrderDetailsJson (delivered_order Demo.runtime Demo.paid_session initial)
                   (JStr "paid") (JStr "kevin@example.com"))).
Proof.
  apply (get_order_after_delivery Demo.runtime "completed" (JStr "t=1,v1=good")
           initial Demo.completed_event DemoRoutes.paid 2); reflexivity.
Defined.

(** ** The admin list *)

Section AdminList.

Variable getTime : string -> option Z.

Lemma swaps_dated a b :
  is_Some (getTime (Order.createdAt a)) -> is_Some (getTime (Order.createdAt b)) ->
  swaps getTime a b = (created_time getTime a <? created_time getTime b).
Proof.
  intros [ta Ha] [tb Hb]. unfold swaps, compare_created, created_time.
  rewrite Ha, Hb. cbn.
  destruct (Z.ltb_spec 0 (tb - ta)), (Z.ltb_spec ta tb); try reflexivity; exfalso; lia.
Qed.

Lemma insert_sorted_perm x l : insert_sorted getTime x l ≡ₚ x :: l.
Proof.
  induction l as [| y l IH]; cbn [insert_sorted]; [reflexivity |].
  destruct (swaps getTime x y); [| reflexivity].
  rewrite IH. apply Permutation_swap.
Qed.

Lemma sort_orders_perm l : sort_orders getTime l ≡ₚ l.
Proof.
  induction l as [| x l IH]; cbn [sort_orders]; [reflexivity |].
  rewrite insert_sorted_perm, IH. reflexivity.
Qed.

Lemma dated_perm l l' : l ≡ₚ l' -> dated getTime l -> dated getTime l'.
Proof. intros Hp. unfold dated. rewrite Hp. trivial. Qed.

Lemma insert_sorted_sorted x l :
  is_Some (getTime (Order.createdAt x)) -> dated getTime l ->
  StronglySorted (newer_eq getTime) l -> StronglySorted (newer_eq getTime) (insert_sorted getTime x l).
Proof.
  intros Hx Hl Hs. induction Hs as [| y l Hs IH Hy]; cbn [insert_sorted].
  - repeat constructor.
  - inversion Hl as [| ? ? Hdy Hdl]; subst.
    rewrite (swaps_dated _ _ Hx Hdy).
    destruct (Z.ltb_spec (created_time getTime x) (created_time getTime y)) as [Hlt | Hge].
    + constructor; [apply IH; exact Hdl |].
      rewrite (insert_sorted_perm x l). constructor; [| exact Hy].
      unfold newer_eq. lia.
    + constructor; [constructor; assumption |].
      constructor; [exact Hge |].
      eapply List.Forall_impl; [| exact Hy]. intros o Ho. unfold newer_eq in *. lia.
Qed.

Lemma sort_orders_sorted l :
  dated getTime l -> StronglySorted (newer_eq getTime) (sort_orders getTime l).
Proof.
  intros Hl. induction Hl as [| x l Hx Hl IH]; cbn [sort_orders]; [constructor |].
  apply insert_sorted_sorted; [exact Hx | | exact IH].
  apply (dated_perm l); [symmetry; apply sort_orders_perm | exact Hl].
Qed.

(** A list that is already newest first is left as it is. *)
Lemma sort_orders_fixed l :
  dated getTime l -> StronglySorted (newer_eq getTime) l -> sort_orders getTime l = l.
Proof.
  intros Hl Hs. induction Hs as [| x l Hs IH Hx]; cbn [sort_orders]; [reflexivity |].
  inversion Hl as [| ? ? Hdx Hdl]; subst. rewrite (IH Hdl).
  destruct l as [| y l]; [reflexivity |]. cbn [insert_sorted].
  inversion Hdl as [| ? ? Hdy _]; subst. inversion Hx as [| ? ? Hxy _]; subst.
  rewrite (swaps_dated _ _ Hdx Hdy).
  destruct (Z.ltb_spec (created_time getTime x) (created_time getTime y));
    [unfold newer_eq in Hxy; exfalso; lia | reflexivity].
Qed.

(** The orders created at one time keep the order they had. *)
Lemma insert_sorted_stable t x l :
  is_Some (getTime (Order.createdAt x)) -> dated getTime l ->
  created_at getTime t (insert_sorted getTime x l) = created_at getTime t (x :: l).
Proof.
  intros Hx Hl. induction Hl as [| y l Hy Hl IH]; cbn [insert_sorted]; [reflexivity |].
  rewrite (swaps_dated _ _ Hx Hy).
  destruct (Z.ltb_spec (created_time getTime x) (created_time getTime y)) as [Hlt | Hge];
    [| reflexivity].
  unfold created_at in *. cbn [List.filter] in *. rewrite IH.
  destruct (Z.eqb_spec (created_time getTime y) t) as [Hyt | Hyt];
    destruct (Z.eqb_spec (created_time getTime x) t) as [Hxt | Hxt];
    try reflexivity; exfalso; lia.
Qed.

Lemma sort_orders_stable t l :
  dated getTime l ->
  created_at getTime t (sort_orders getTime l) = created_at getTime t l.
Proof.
  intros Hl. induction Hl as [| x l Hx Hl IH]; cbn [sort_orders]; [reflexivity |].
  rewrite insert_sorted_stable; [| exact Hx |].
  - unfold created_at in *. cbn [List.filter]. rewrite IH. reflexivity.
  - apply (dated_perm l); [symmetry; apply sort_orders_perm | exact Hl].
Qed.

Lemma list_orders_run st :
  list_orders getTime st
  = (Answered (reply_json (OrdersJson (sort_orders getTime (orders (data st))))),
     set_data st {| orders := sort_orders getTime (orders (data st));
                    uploads := uploads (data st) |}).
Proof. reflexivity. Qed.

End AdminList.

(** X9. The admin list answers 200 with the orders of the store, each of
    them exactly once.  The sort works on the collection in memory, which
    holds the answered sequence afterwards, but nothing is written: db.json,
    the uploads, the mail log and the Stripe log are as before. *)
Theorem list_orders_reorders_memory_only getTime st :
  exists listed,
    list_orders getTime st = (Answered (reply_json (OrdersJson listed)),
                              set_data st {| orders := listed;
                                             uploads := uploads (data st) |})
    /\ listed ≡ₚ orders (data st)
    /\ length listed = length (orders (data st))
    /\ file (snd (list_orders getTime st)) = file st
    /\ uploads (data (snd (list_orders getTime st))) = uploads (data st)
    /\ mail_attempts (snd (list_orders getTime st)) = mail_attempts st
    /\ stripe_requests (snd (list_orders getTime st)) = stripe_requests st.
Proof.
  exists (sort_orders getTime (orders (data st))).
  split; [apply list_orders_run |].
  split; [apply sort_orders_perm |].
  split; [apply Permutation_length, sort_orders_perm |]. repeat split.
Qed.

(** X10. When every createdAt of the store is a date, the list is
    answered newest first, and orders created at the same time come in the
    order in which the store held them. *)
Theorem list_orders_newest_first getTime st :
  dated getTime (orders (data st)) ->
  exists listed,
    fst (list_orders getTime st) = Answered (reply_json (OrdersJson listed))
    /\ StronglySorted (newer_eq getTime) listed
    /\ forall t, created_at getTime t listed = created_at getTime t (orders (data st)).
Proof.
  intros Hdated. exists (sort_orders getTime (orders (data st))).
  split; [reflexivity |]. split; [apply sort_orders_sorted, Hdated |].
  intros t. apply sort_orders_stable, Hdated.
Qed.

Lemma dated_forallb getTime l :
  forallb (fun o => bool_decide (is_Some (getTime (Order.createdAt o)))) l = true ->
  dated getTime l.
Proof.
  intros H. apply List.Forall_forall. intros o Ho.
  rewrite forallb_forall in H. specialize (H o Ho).
  apply bool_decide_eq_true in H. exact H.
Qed.

Lemma three_deliveries_dated :
  dated DemoRoutes.getTime
    (orders (data (deliveries Demo.runtime "completed" (JStr "t=1,v1=good") 3 initial))).
Proof. apply dated_forallb. vm_compute. reflexivity. Qed.

Lemma list_orders_newest_first_witness :
  exists listed,
    fst (list_orders DemoRoutes.getTime
           (deliveries Demo.runtime "completed" (JStr "t=1,v1=good") 3 initial))
    = Answered (reply_json (OrdersJson listed))
    /\ StronglySorted (newer_eq DemoRoutes.getTime) listed.
Proof.
  destruct (list_orders_newest_first DemoRoutes.getTime
              (deliveries Demo.runtime "completed" (JStr "t=1,v1=good") 3 initial)
              three_deliveries_dated) as (listed & Hanswer & Hsorted & _).
  exists listed. split; [exact Hanswer | exact Hsorted].
Defined.

(** X11. Listing twice is listing once: when every createdAt is a date, a
    second admin list right after the first gives the same answer and leaves
    the state the first one left. *)
Theorem list_orders_idempotent getTime st :
  dated getTime (orders (data st)) ->
  list_orders getTime (snd (list_orders getTime st)) = list_orders getTime st.
Proof.
  intros Hdated. rewrite !list_orders_run. cbn [snd set_data data orders uploads].
  rewrite sort_orders_fixed.
  - reflexivity.
  - apply (dated_perm getTime (orders (data st)));
      [symmetry; apply sort_orders_perm | exact Hdated].
  - apply sort_orders_sorted, Hdated.
Qed.

Lemma list_orders_idempotent_witness :
  list_orders DemoRoutes.getTime
    (snd (list_orders DemoRoutes.getTime
            (deliveries Demo.runtime "completed" (JStr "t=1,v1=good") 3 initial)))
  = list_orders DemoRoutes.getTime
      (deliveries Demo.runtime "completed" (JStr "t=1,v1=good") 3 initial).
Proof.
  apply (list_orders_idempotent DemoRoutes.getTime
           (deliveries Demo.runtime "completed" (JStr "t=1,v1=good") 3 initial)
           three_deliveries_dated).
Defined.

(** ** Status updates, further *)

Lemma method_toUpperCase_non_string rt status :
  (forall s, status <> JStr s) -> exists e, method_toUpperCase rt status = Throw e.
Proof.
  intros Hns. destruct status as [| | b | z | | s]; cbn; eauto.
  destruct (Hns s eq_refl).
Qed.

(** X12. A status that is not a string (none at all, null, a number, a
    boolean), for an identifier that some order carries: the handler answers
    500 Failed to update order and logs the error, but the order already
    holds that value as its status and a new updatedAt, in memory and in
    db.json, and the customer is sent nothing. *)
Theorem update_status_non_string rt orderId status st o :
  In o (orders (data st)) ->
  Order.id o = JStr orderId ->
  (forall s, status <> JStr s) ->
  exists i order line,
    orders (data st) !! i = Some order
    /\ Order.id order = JStr orderId
    /\ let order' :=
         Order.set_status order status (toISOString_now rt (clock_reads st)) in
       let st' := snd (update_status rt orderId status st) in
       fst (update_status rt orderId status st)
       = Responded (status_json 500 (ErrorJson "Failed to update order"))
       /\ orders (data st') = <[i := order']> (orders (data st))
       /\ file st' = data st'
       /\ mail_attempts st' = mail_attempts st
       /\ console st' = (console st ++ [("Order update error:", line)])%list.
Proof.
  intros Hin Hid Hns.
  destruct (find_ref_present orderId _ o Hin Hid) as (i & order & Hfind & Hl & Hoid).
  destruct (method_toUpperCase_non_string rt status Hns) as [e He].
  exists i, order, (message e). split; [exact Hl |]. split; [exact Hoid |].
  intros order' st'. subst st'.
  rewrite (update_status_found _ _ _ _ _ _ Hfind), He. repeat split.
Qed.

Lemma update_status_non_string_witness :
  exists i order line,
    orders (data Demo.after_one_delivery) !! i = Some order
    /\ fst (update_status Demo.runtime "8f14e45f-ceea-467f-a0e6-5a1d2b9c3e77" (JNum 3)
                          Demo.after_one_delivery)
       = Responded (status_json 500 (ErrorJson "Failed to update order"))
    /\ orders (data (snd (update_status Demo.runtime
                            "8f14e45f-ceea-467f-a0e6-5a1d2b9c3e77" (JNum 3)
                            Demo.after_one_delivery)))
       = <[i := Order.set_status order (JNum 3)
                  (toISOString_now Demo.runtime (clock_reads Demo.after_one_delivery))]>
           (orders (data Demo.after_one_delivery))
    /\ console (snd (update_status Demo.runtime
                       "8f14e45f-ceea-467f-a0e6-5a1d2b9c3e77" (JNum 3)
                       Demo.after_one_delivery))
       = (console Demo.after_one_delivery ++ [("Order update error:", line)])%list.
Proof.
  destruct (update_status_non_string Demo.runtime
              "8f14e45f-ceea-467f-a0e6-5a1d2b9c3e77" (JNum 3) Demo.after_one_delivery
              (delivered_order Demo.runtime Demo.paid_session initial)
              (or_introl eq_refl) eq_refl)
    as (i & order & line & Hl & _ & Hanswer & Horders & _ & _ & Hconsole).
  - intros s. discriminate.
  - exists i, order, line. repeat split; assumption.
Defined.

Lemma find_ref_insert p l i o o' :
  find_ref p l = Some (i, o) -> p o' = true ->
  find_ref p (<[i := o']> l) = Some (i, o').
Proof.
  revert i. induction l as [| x l IH]; intros i; cbn [find_ref]; [discriminate |].
  destruct (p x) eqn:Hp.
  - intros [= <- <-] Ho'. change (<[0%nat := o']> (x :: l)) with (o' :: l).
    cbn [find_ref]. rewrite Ho'. reflexivity.
  - destruct (find_ref p l) as [[j found] |] eqn:Hfind; [| discriminate].
    intros [= <- <-] Ho'. change (<[S j := o']> (x :: l)) with (x :: <[j := o']> l).
    cbn [find_ref]. rewrite Hp, (IH j eq_refl Ho'). reflexivity.
Qed.

(** X13. No transition is refused and the last write wins: for an
    identifier that some order carries and any two status labels, a PATCH
    to the first followed by a PATCH to the second is answered 200 both
    times and leaves the order with the second label, whatever the two are
    (completed may be followed by pending); the store then differs from the
    one before both only in that order's status and updatedAt. *)
Theorem update_status_any_transition rt orderId s1 s2 st o :
  In o (orders (data st)) ->
  Order.id o = JStr orderId ->
  exists i order,
    orders (data st) !! i = Some order
    /\ let st1 := snd (update_status rt orderId (JStr s1) st) in
       let final :=
         Order.set_status order (JStr s2) (toISOString_now rt (S (clock_reads st))) in
       fst (update_status rt orderId (JStr s1) st)
       = Responded (json (OrderJson
           (Order.set_status order (JStr s1) (toISOString_now rt (clock_reads st)))))
       /\ fst (update_status rt orderId (JStr s2) st1)
          = Responded (json (OrderJson final))
       /\ orders (data (snd (update_status rt orderId (JStr s2) st1)))
          = <[i := final]> (orders (data st)).
Proof.
  intros Hin Hid.
  destruct (find_ref_present orderId _ o Hin Hid) as (i & order & Hfind & Hl & Hoid).
  exists i, order. split; [exact Hl |]. intros st1 final. subst st1.
  rewrite (update_status_string _ _ _ _ _ _ Hfind). split; [reflexivity |].
  cbn [snd].
  set (first := Order.set_status order (JStr s1) (toISOString_now rt (clock_reads st))).
  assert (Hfind1 : find_ref (has_id orderId)
                     (orders (data (after_mail rt "Status email error:"
                        (status_mail rt order orderId s1)
                        (stored st (with_order_at (data st) i first) 1))))
                   = Some (i, first)).
  { cbn [after_mail stored data with_order_at orders].
    apply (find_ref_insert _ _ _ _ _ Hfind).
    unfold has_id, first. cbn [Order.set_status Order.id]. rewrite Hoid.
    cbn [strict_eq]. apply String.eqb_refl. }
  rewrite (update_status_string _ _ _ _ _ _ Hfind1).
  cbn [fst snd after_mail stored data with_order_at orders clock_reads Nat.add].
  split; [reflexivity |]. apply list_insert_insert_eq.
Qed.

Lemma update_status_any_transition_witness :
  exists final,
    fst (update_status Demo.runtime "8f14e45f-ceea-467f-a0e6-5a1d2b9c3e77"
           (JStr "pending")
           (snd (update_status Demo.runtime "8f14e45f-ceea-467f-a0e6-5a1d2b9c3e77"
                   (JStr "completed") Demo.after_one_delivery)))
    = Responded (json (OrderJson final))
    /\ Order.status final = JStr "pending".
Proof.
  destruct (update_status_any_transition Demo.runtime
              "8f14e45f-ceea-467f-a0e6-5a1d2b9c3e77" "completed" "pending"
              Demo.after_one_delivery
              (delivered_order Demo.runtime Demo.paid_session initial)
              (or_introl eq_refl) eq_refl)
    as (i & order & _ & _ & Hsecond & _).
  eexists. split; [exact Hsecond | reflexivity].
Defined.

Lemma identity_of_set_status o status updated :
  identity_of (Order.set_status o status updated) = identity_of o.
Proof. reflexivity. Qed.

(** X14. A PATCH, however it ends, neither adds nor removes an order and
    rewrites nothing of any order but its status and its updatedAt; the
    uploads are as before. *)
Theorem update_status_keeps_identity rt orderId status st :
  map identity_of (orders (data (snd (update_status rt orderId status st))))
  = map identity_of (orders (data st))
  /\ length (orders (data (snd (update_status rt orderId status st))))
     = length (orders (data st))
  /\ uploads (data (snd (update_status rt orderId status st))) = uploads (data st).
Proof.
  assert (Hmap : map identity_of (orders (data (snd (update_status rt orderId status st))))
                 = map identity_of (orders (data st))
                 /\ uploads (data (snd (update_status rt orderId status st)))
                    = uploads (data st)).
  { destruct (find_ref (has_id orderId) (orders (data st))) as [[i order] |] eqn:Hfind.
    - rewrite (update_status_found _ _ _ _ _ _ Hfind).
      destruct (find_ref_Some _ _ _ _ Hfind) as (Hl & _ & _).
      assert (Hsame : map identity_of
                        (<[i := Order.set_status order status
                                  (toISOString_now rt (clock_reads st))]>
                           (orders (data st)))
                      = map identity_of (orders (data st))).
      { change (map identity_of ?l) with (identity_of <$> l).
        rewrite list_fmap_insert, identity_of_set_status.
        apply list_insert_id. rewrite list_lookup_fmap, Hl. reflexivity. }
      destruct (method_toUpperCase rt status); split; try exact Hsame; reflexivity.
    - rewrite (update_status_not_found _ _ _ _ Hfind). split; reflexivity. }
  destruct Hmap as [Hmap Huploads]. split; [exact Hmap |]. split; [| exact Huploads].
  apply (f_equal (@length _)) in Hmap. rewrite !length_map in Hmap. exact Hmap.
Qed.

(** ** Invariants of the server over any sequence of requests *)

(** What a webhook call does to the orders: nothing, or one more. *)
Lemma webhook_orders rt payload sig st :
  exists added,
    orders (data (snd (webhook rt payload sig st))) = (orders (data st) ++ added)%list
    /\ (length added <= 1)%nat
    /\ uploads (data (snd (webhook rt payload sig st))) = uploads (data st)
    /\ (file (snd (webhook rt payload sig st)) = data (snd (webhook rt payload sig st))
        \/ snd (webhook rt payload sig st) = st
        \/ (data (snd (webhook rt payload sig st)) = data st
            /\ file (snd (webhook rt payload sig st)) = file st))
    /\ uuids_drawn (snd (webhook rt payload sig st)) = uuids_drawn st.
Proof.
  destruct (constructEvent rt payload sig (STRIPE_WEBHOOK_SECRET rt))
    as [event | err] eqn:Hverify.
  - destruct (String.eqb_spec (Event.type event) "checkout.session.completed")
      as [Htype | Htype].
    + exists [delivered_order rt (Event.data_object event) st].
      rewrite (webhook_completed_run _ _ _ _ _ Hverify Htype).
      destruct (member_name _); cbn; repeat split; auto.
    + exists []. rewrite (webhook_other_run _ _ _ _ _ Hverify Htype).
      cbn. rewrite app_nil_r. repeat split; auto.
  - exists []. rewrite (webhook_unverified_run _ _ _ _ _ Hverify).
    cbn. rewrite app_nil_r. repeat split; auto.
Qed.

Lemma get_order_frame retrieved sessionId st :
  data (snd (get_order retrieved sessionId st)) = data st
  /\ file (snd (get_order retrieved sessionId st)) = file st
  /\ uuids_drawn (snd (get_order retrieved sessionId st)) = uuids_drawn st.
Proof.
  rewrite get_order_run. destruct retrieved as [session | e]; [| repeat split].
  destruct (order_by_session sessionId st); repeat split.
Qed.

(** What the upload route can do to the state. *)
Lemma upload_route_cases rt part st :
  snd (upload_route rt part st) = st
  \/ snd (upload_route rt part st) = drawn st
  \/ exists record,
       Upload.id record = uuidv4 rt (S (uuids_drawn st))
       /\ snd (upload_route rt part st)
          = drawn (drawn (stored st {| orders := orders (data st);
                                       uploads := uploads (data st) ++ [record] |} 1)).
Proof.
  destruct part as [p |].
  - rewrite upload_route_run. destruct (fileFilter (Part.mimetype p)); [| left; reflexivity].
    destruct (Part.limit_reached p); [right; left; reflexivity |].
    right. right. eexists. split; [| reflexivity]. reflexivity.
  - left. unfold upload_route, upload_single. destruct st; reflexivity.
Qed.

Lemma upload_route_frame rt part st :
  orders (data (snd (upload_route rt part st))) = orders (data st)
  /\ stripe_requests (snd (upload_route rt part st)) = stripe_requests st.
Proof.
  destruct (upload_route_cases rt part st) as [-> | [-> | (record & _ & ->)]];
    split; reflexivity.
Qed.

(** The orders after one request: those before, up to their sequence,
    status and updatedAt, and at most one more, which only a webhook call
    adds. *)
Lemma serve_orders rt getTime r st :
  exists added,
    map identity_of (orders (data (serve rt getTime r st)))
    ≡ₚ (map identity_of (orders (data st)) ++ added)%list
    /\ (length added <= webhooks [r])%nat.
Proof.
  destruct r as [file | body | payload sig | sessionId retrieved | | orderId status];
    cbn [serve webhooks].
  - exists []. rewrite app_nil_r. destruct (upload_route_frame rt file st) as [-> _].
    split; [reflexivity | cbn; lia].
  - exists []. rewrite app_nil_r.
    destruct (create_checkout_frame rt body st) as (-> & _).
    split; [reflexivity | cbn; lia].
  - destruct (webhook_orders rt payload sig st) as (added & -> & Hlen & _).
    exists (map identity_of added). rewrite map_app, length_map.
    split; [reflexivity | exact Hlen].
  - exists []. rewrite app_nil_r.
    destruct (get_order_frame retrieved sessionId st) as (-> & _).
    split; [reflexivity | cbn; lia].
  - exists []. rewrite app_nil_r. rewrite list_orders_run. cbn [snd set_data data orders].
    split; [| cbn; lia]. apply Permutation_map, sort_orders_perm.
  - exists []. rewrite app_nil_r.
    destruct (update_status_keeps_identity rt orderId status st) as (-> & _).
    split; [reflexivity | cbn; lia].
Qed.

Lemma webhooks_cons r requests :
  webhooks (r :: requests) = (webhooks [r] + webhooks requests)%nat.
Proof. destruct r; reflexivity. Qed.

(** X15. Orders are never deleted, and only the webhook creates them:
    after any sequence of requests the store holds every order it held
    before, with everything but status and updatedAt as it was, and at most
    one further order for each webhook call of the sequence. *)
Theorem orders_only_grow_by_webhook rt getTime requests st :
  exists added,
    map identity_of (orders (data (serve_all rt getTime requests st)))
    ≡ₚ (map identity_of (orders (data st)) ++ added)%list
    /\ (length added <= webhooks requests)%nat
    /\ (length (orders (data st))
        <= length (orders (data (serve_all rt getTime requests st))))%nat.
Proof.
  assert (Hmain : exists added,
            map identity_of (orders (data (serve_all rt getTime requests st)))
            ≡ₚ (map identity_of (orders (data st)) ++ added)%list
            /\ (length added <= webhooks requests)%nat).
  { revert st. induction requests as [| r requests IH]; intros st; cbn [serve_all].
    - exists []. rewrite app_nil_r. split; [reflexivity | cbn; lia].
    - destruct (IH (serve rt getTime r st)) as (later & Hlater & Hlen).
      destruct (serve_orders rt getTime r st) as (now_added & Hnow & Hlen1).
      exists (now_added ++ later)%list. split.
      + rewrite Hlater, Hnow, app_assoc. reflexivity.
      + rewrite length_app, webhooks_cons. lia. }
  destruct Hmain as (added & Hperm & Hlen). exists added.
  split; [exact Hperm |]. split; [exact Hlen |].
  apply Permutation_length in Hperm. rewrite length_app, !length_map in Hperm. lia.
Qed.

Lemma serve_synced rt getTime r st : synced st -> synced (serve rt getTime r st).
Proof.
  intros [Horders Huploads].
  destruct r as [file | body | payload sig | sessionId retrieved | | orderId status];
    cbn [serve].
  - destruct (upload_route_cases rt file st) as [-> | [-> | (record & _ & ->)]].
    + split; assumption.
    + split; assumption.
    + split; reflexivity.
  - destruct (create_checkout_frame rt body st) as (Hd & Hf & _).
    unfold synced. rewrite Hd, Hf. split; assumption.
  - destruct (webhook_orders rt payload sig st) as (added & _ & _ & _ & Hfile & _).
    destruct Hfile as [Hfile | [-> | [Hd Hf]]].
    + unfold synced. rewrite Hfile. split; reflexivity.
    + split; assumption.
    + unfold synced. rewrite Hd, Hf. split; assumption.
  - destruct (get_order_frame retrieved sessionId st) as (Hd & Hf & _).
    unfold synced. rewrite Hd, Hf. split; assumption.
  - rewrite list_orders_run. split; cbn; [| exact Huploads].
    rewrite sort_orders_perm. exact Horders.
  - destruct (find_ref (has_id orderId) (orders (data st))) as [[i order] |] eqn:Hfind.
    + rewrite (update_status_found _ _ _ _ _ _ Hfind).
      destruct (method_toUpperCase rt status); split; reflexivity.
    + rewrite (update_status_not_found _ _ _ _ Hfind). split; assumption.
Qed.

(** X16. db.json keeps up with the memory: starting from a state in which
    db.json holds the orders and uploads of the memory, and so from a fresh
    server, any sequence of requests leaves db.json with exactly the
    uploads of the memory and exactly its orders, the same number of times
    each; only their sequence can differ, after an admin list. *)
Theorem db_json_keeps_up rt getTime requests st :
  synced st -> synced (serve_all rt getTime requests st).
Proof.
  revert st. induction requests as [| r requests IH]; intros st Hst; cbn [serve_all];
    [exact Hst |].
  apply IH, serve_synced, Hst.
Qed.

Lemma db_json_keeps_up_witness :
  synced (serve_all Demo.runtime DemoRoutes.getTime
            [PostUpload (Some DemoRoutes.photo_part);
             PostCreateCheckout Demo.checkout_body;
             PostWebhook "completed" (JStr "t=1,v1=good");
             PostWebhook "completed" (JStr "t=1,v1=good");
             GetAdminOrders;
             PatchAdminOrder "8f14e45f-ceea-467f-a0e6-5a1d2b9c3e77" (JStr "shipped")]
            initial).
Proof.
  apply (db_json_keeps_up Demo.runtime DemoRoutes.getTime _ initial).
  split; reflexivity.
Defined.

(** ** The identifiers drawn from the generator *)

Lemma update_status_frame rt orderId status st :
  uuids_drawn (snd (update_status rt orderId status st)) = uuids_drawn st
  /\ stripe_requests (snd (update_status rt orderId status st)) = stripe_requests st.
Proof.
  destruct (find_ref (has_id orderId) (orders (data st))) as [[i order] |] eqn:Hfind.
  - rewrite (update_status_found _ _ _ _ _ _ Hfind).
    destruct (method_toUpperCase rt status); split; reflexivity.
  - rewrite (update_status_not_found _ _ _ _ Hfind). split; reflexivity.
Qed.

(** No request gives a drawn identifier back, and only an upload changes
    the uploads: by one record, whose id is a draw of that request. *)
Lemma serve_uuids rt getTime r st :
  (uuids_drawn st <= uuids_drawn (serve rt getTime r st))%nat
  /\ (uploads (data (serve rt getTime r st)) = uploads (data st)
      \/ exists record k,
           (uuids_drawn st <= k < uuids_drawn (serve rt getTime r st))%nat
           /\ Upload.id record = uuidv4 rt k
           /\ uploads (data (serve rt getTime r st))
              = (uploads (data st) ++ [record])%list).
Proof.
  destruct r as [file | body | payload sig | sessionId retrieved | | orderId status];
    cbn [serve].
  - destruct (upload_route_cases rt file st) as [-> | [-> | (record & Hid & ->)]].
    + split; [lia | left; reflexivity].
    + cbn. split; [lia | left; reflexivity].
    + cbn. split; [lia |]. right. exists record, (S (uuids_drawn st)).
      split; [lia |]. split; [exact Hid | reflexivity].
  - destruct (create_checkout_frame rt body st) as (-> & _ & _ & _ & Hle).
    split; [exact Hle | left; reflexivity].
  - destruct (webhook_orders rt payload sig st) as (added & _ & _ & -> & _ & ->).
    split; [lia | left; reflexivity].
  - destruct (get_order_frame retrieved sessionId st) as (-> & _ & ->).
    split; [lia | left; reflexivity].
  - rewrite list_orders_run. cbn. split; [lia | left; reflexivity].
  - destruct (update_status_frame rt orderId status st) as [-> _].
    destruct (update_status_keeps_identity rt orderId status st) as (_ & _ & ->).
    split; [lia | left; reflexivity].
Qed.

Lemma serve_all_uuids rt getTime requests st :
  (uuids_drawn st <= uuids_drawn (serve_all rt getTime requests st))%nat.
Proof.
  revert st. induction requests as [| r requests IH]; intros st; cbn [serve_all]; [lia |].
  destruct (serve_uuids rt getTime r st) as [Hle _]. specialize (IH (serve rt getTime r st)).
  lia.
Qed.

Lemma serve_upload_ids rt getTime r st :
  (forall i j, uuidv4 rt i = uuidv4 rt j -> i = j) ->
  upload_ids_drawn rt st -> upload_ids_drawn rt (serve rt getTime r st).
Proof.
  intros Hinj [Hnodup Hdrawn].
  destruct (serve_uuids rt getTime r st)
    as [Hle [Hsame | (record & k & Hk & Hid & Hup)]].
  - unfold upload_ids_drawn. rewrite Hsame. split; [exact Hnodup |].
    eapply List.Forall_impl; [| exact Hdrawn].
    intros u (n & Hn & Hu). exists n. split; [lia | exact Hu].
  - unfold upload_ids_drawn. rewrite Hup. split.
    + rewrite map_app. cbn [map]. apply NoDup_app. split; [exact Hnodup |].
      split; [| apply NoDup_singleton].
      intros x Hx Hx'. apply list_elem_of_singleton in Hx'. subst x.
      apply list_elem_of_fmap in Hx. destruct Hx as (u & Hux & Hu).
      rewrite List.Forall_forall in Hdrawn. apply list_elem_of_In in Hu.
      destruct (Hdrawn u Hu) as (n & Hn & Hnu).
      rewrite Hid, Hnu in Hux. apply Hinj in Hux. lia.
    + apply Forall_app. split.
      * eapply List.Forall_impl; [| exact Hdrawn].
        intros u (n & Hn & Hu). exists n. split; [lia | exact Hu].
      * constructor; [| constructor]. exists k. split; [lia | exact Hid].
Qed.

(** X17. With a generator that never gives the same identifier twice, no
    two uploads of the store ever carry the same id: pairwise different
    upload ids that were all drawn from the generator stay so through any
    sequence of requests, starting with the empty store of a fresh
    server. *)
Theorem upload_ids_stay_distinct rt getTime requests st :
  (forall i j, uuidv4 rt i = uuidv4 rt j -> i = j) ->
  upload_ids_drawn rt st ->
  upload_ids_drawn rt (serve_all rt getTime requests st)
  /\ NoDup (map Upload.id (uploads (data (serve_all rt getTime requests st)))).
Proof.
  intros Hinj. revert st.
  assert (Hall : forall st, upload_ids_drawn rt st ->
                            upload_ids_drawn rt (serve_all rt getTime requests st)).
  { induction requests as [| r requests IH]; intros st Hst; cbn [serve_all]; [exact Hst |].
    apply IH, serve_upload_ids; assumption. }
  intros st Hst. split; [apply Hall, Hst | apply (Hall st Hst)].
Qed.

Lemma Z_toString_inj a b : Z_toString a = Z_toString b -> a = b.
Proof.
  intros H. apply (f_equal parseInt_string) in H.
  rewrite !parseInt_Z_toString in H. congruence.
Qed.

Lemma demo_uuids_differ i j : uuidv4 Demo.runtime i = uuidv4 Demo.runtime j -> i = j.
Proof.
  cbn [uuidv4 Demo.runtime]. intros H.
  apply append_same_length in H; [| reflexivity]. destruct H as [_ H].
  apply Z_toString_inj in H. lia.
Qed.

Lemma upload_ids_stay_distinct_witness :
  NoDup (map Upload.id
           (uploads (data (serve_all Demo.runtime DemoRoutes.getTime
                             [PostUpload (Some DemoRoutes.photo_part);
                              PostCreateCheckout Demo.checkout_body;
                              PostUpload (Some DemoRoutes.photo_part)]
                             initial)))).
Proof.
  apply (upload_ids_stay_distinct Demo.runtime DemoRoutes.getTime _ initial
           demo_uuids_differ).
  split; constructor.
Defined.

(** X18. With a generator that never gives the same identifier twice, two
    checkouts that pass the validation never carry the same order id to
    Stripe, whatever requests are served between them. *)
Theorem checkout_order_ids_differ rt getTime b1 b2 between st :
  (forall i j, uuidv4 rt i = uuidv4 rt j -> i = j) ->
  validate b1 = None ->
  validate b2 = None ->
  let st1 := snd (create_checkout rt b1 st) in
  let st2 := serve_all rt getTime between st1 in
  exists p1 p2,
    stripe_requests st1 = (stripe_requests st ++ [p1])%list
    /\ stripe_requests (snd (create_checkout rt b2 st2))
       = (stripe_requests st2 ++ [p2])%list
    /\ meta (Params.metadata p1) "orderId" = JStr (uuidv4 rt (uuids_drawn st))
    /\ meta (Params.metadata p2) "orderId" = JStr (uuidv4 rt (uuids_drawn st2))
    /\ meta (Params.metadata p1) "orderId" <> meta (Params.metadata p2) "orderId".
Proof.
  intros Hinj Hv1 Hv2 st1 st2.
  destruct (checkout_params_run rt b1 st Hv1) as (p1 & Hrun1 & _ & _ & _ & Hmeta1).
  destruct (checkout_params_run rt b2 st2 Hv2) as (p2 & Hrun2 & _ & _ & _ & Hmeta2).
  exists p1, p2.
  destruct (create_checkout_requests _ _ _ _ Hv1 Hrun1) as [Hsent1 _].
  destruct (create_checkout_requests _ _ _ _ Hv2 Hrun2) as [Hsent2 _].
  split; [exact Hsent1 |]. split; [exact Hsent2 |].
  rewrite Hmeta1, Hmeta2.
  destruct (checkout_metadata_read (uuidv4 rt (uuids_drawn st))
              (ToString (CheckoutBody.quantity b1)) b1) as (-> & _).
  destruct (checkout_metadata_read (uuidv4 rt (uuids_drawn st2))
              (ToString (CheckoutBody.quantity b2)) b2) as (-> & _).
  split; [reflexivity |]. split; [reflexivity |].
  intros [= Heq]. apply Hinj in Heq.
  assert (Hdrawn : uuids_drawn st1 = S (uuids_drawn st)).
  { subst st1. rewrite (create_checkout_accepted _ _ _ _ Hv1 Hrun1).
    destruct (sessions_create rt _ p1); reflexivity. }
  pose proof (serve_all_uuids rt getTime between st1) as Hle. fold st2 in Hle. lia.
Qed.

Lemma checkout_order_ids_differ_witness :
  exists p1 p2,
    stripe_requests
      (snd (create_checkout Demo.runtime Demo.checkout_body
              (serve_all Demo.runtime DemoRoutes.getTime
                 [PostUpload (Some DemoRoutes.photo_part)]
                 (snd (create_checkout Demo.runtime Demo.checkout_body initial)))))
    = [p1; p2]
    /\ meta (Params.metadata p1) "orderId" <> meta (Params.metadata p2) "orderId".
Proof.
  destruct (checkout_order_ids_differ Demo.runtime DemoRoutes.getTime
              Demo.checkout_body Demo.checkout_body
              [PostUpload (Some DemoRoutes.photo_part)] initial demo_uuids_differ
              (valid_intent_validate _ demo_body_valid)
              (valid_intent_validate _ demo_body_valid))
    as (p1 & p2 & Hsent1 & Hsent2 & _ & _ & Hne).
  exists p1, p2. split; [| exact Hne].
  rewrite Hsent2. cbn [serve_all serve].
  rewrite (proj2 (upload_route_frame Demo.runtime (Some DemoRoutes.photo_part) _)).
  rewrite Hsent1. reflexivity.
Defined.
